(** * PyPOTS imputation wrappers: SAITS and USGAN

    A shallow embedding of the two Python classes of
    [pypots/imputation/usgan/core.py] ([_USGAN]) and
    [pypots/imputation/saits/model.py] ([SAITS]).

    Both classes are orchestration code around neural modules that live
    elsewhere (torch, numpy, [BackboneUSGAN], [_SAITS], [BaseNNImputer]).
    Those collaborators are taken as parameters of the development: every
    call into them is a function that may raise and that threads the state
    it owns.  What is modelled in full is the code of the two classes: the
    guards, the branches, the dictionaries that are built and the order in
    which the collaborators are called. *)

From stdpp Require Import gmap strings list pretty.

Set Warnings "-register-all".
Set Default Proof Using "Type".

(** ** Python values and control effects *)

Module Py.

(** An exception is identified by its class name and carries a message. *)
Record exn : Type := Exn { exn_class : string; exn_msg : string }.

Definition AssertionError (msg : string) : exn := Exn "AssertionError" msg.
Definition ValueError (msg : string) : exn := Exn "ValueError" msg.
Definition TypeError (msg : string) : exn := Exn "TypeError" msg.
Definition KeyError (msg : string) : exn := Exn "KeyError" msg.
Definition AttributeError (msg : string) : exn := Exn "AttributeError" msg.

(** The outcome of running a piece of Python code: a value or a raised
    exception. *)
Inductive Result (A : Type) : Type :=
| Ok (a : A)
| Raise (e : exn).
Arguments Ok {A} a.
Arguments Raise {A} e.

Definition is_Ok {A} (r : Result A) : Prop := exists a, r = Ok a.

(** Code that may raise and that mutates a store of type [St]. *)
Definition M (St A : Type) : Type := St -> Result A * St.

Definition ret {St A} (a : A) : M St A := fun s => (Ok a, s).

Definition raise {St A} (e : exn) : M St A := fun s => (Raise e, s).

Definition bind {St A B} (m : M St A) (k : A -> M St B) : M St B :=
  fun s => match m s with
           | (Ok a, s') => k a s'
           | (Raise e, s') => (Raise e, s')
           end.

(** A computation that does not touch the store. *)
Definition lift {St A} (r : Result A) : M St A := fun s => (r, s).

(** [assert cond, msg] *)
Definition py_assert {St} (cond : bool) (msg : string) : M St unit :=
  if cond then ret tt else raise (AssertionError msg).

(** [d[k]] on a dict with string keys. *)
Definition getitem {V} (d : gmap string V) (k : string) : Result V :=
  match d !! k with
  | Some v => Ok v
  | None => Raise (KeyError ("'" +:+ k +:+ "'"))
  end.

(** The double quote character, for messages that contain it. *)
Definition dquote : string := String (Ascii.ascii_of_nat 34) EmptyString.

(** The message of a failed unpacking into [n] names of a sequence of
    [got] items, [got] different from [n]. *)
Definition unpack_msg (n got : nat) : string :=
  if decide (n < got) then
    "too many values to unpack (expected " +:+ pretty n +:+ ")"
  else
    "not enough values to unpack (expected " +:+ pretty n +:+ ", got "
    +:+ pretty got +:+ ")".

End Py.

Import Py.

Declare Scope py_scope.
Delimit Scope py_scope with py.
Notation "'let*' x ':=' e 'in' k" := (bind e (fun x => k))
  (at level 10, x name, e at level 100, k at level 200) : py_scope.
Notation "'let*' ' p ':=' e 'in' k" :=
  (bind e (fun x => match x with p => k end))
  (at level 10, p pattern, e at level 100, k at level 200) : py_scope.
Open Scope py_scope.

(** ** USGAN: [pypots/imputation/usgan/core.py] *)

Module USGAN.

(** What a torch module may hand back from its forward pass: a tensor, or
    a tuple of such results. *)
Inductive Output (Tensor : Type) : Type :=
| OTensor (t : Tensor)
| OTuple (items : list (Output Tensor)).
Arguments OTensor {Tensor} t.
Arguments OTuple {Tensor} items.

(** The values found in an [inputs] dict: tensors and nested dicts. *)
Inductive Input (Tensor : Type) : Type :=
| ITensor (t : Tensor)
| IDict (d : gmap string (Input Tensor)).
Arguments ITensor {Tensor} t.
Arguments IDict {Tensor} d.

(** The collaborators of [_USGAN].  Tensors are opaque; [BState] is what
    the backbone module owns (its parameters, its random generators). *)
Class Backbone : Type := {
  Tensor : Type;
  BState : Type;
  (** Iterating over a tensor yields its slices along the first axis; a
      0-d tensor cannot be iterated. *)
  tensor_rows : Tensor -> option (list Tensor);
  (** [BackboneUSGAN.forward], from [pypots/nn/modules/usgan]. *)
  BackboneUSGAN_forward :
    gmap string (Input Tensor) -> string -> bool ->
    BState -> Result (Output Tensor) * BState
}.

Section Model.

Context {bb : Backbone}.

(** One invocation of the backbone, with the arguments it received. *)
Definition Call : Type := gmap string (Input Tensor) * string * bool.

(** A [_USGAN] instance holds its backbone; [calls] records every
    invocation of the backbone, oldest first. *)
Record _USGAN : Type := Build_USGAN {
  backbone : BState;
  calls : list Call
}.

(** The object after one call of the backbone that left it in state [b]. *)
Definition after_call (self : _USGAN) (inputs : gmap string (Input Tensor))
    (training_object : string) (training : bool) (b : BState) : _USGAN :=
  {| backbone := b;
     calls := calls self ++ [(inputs, training_object, training)] |}.

(** [self.backbone(inputs, training_object, training)] *)
Definition call_backbone (inputs : gmap string (Input Tensor))
    (training_object : string) (training : bool)
  : M _USGAN (Output Tensor) :=
  fun self =>
    let '(out, b) :=
      BackboneUSGAN_forward inputs training_object training (backbone self) in
    (out, after_call self inputs training_object training b).

(** The items an output yields when it is iterated. *)
Definition py_iter (v : Output Tensor) : Result (list (Output Tensor)) :=
  match v with
  | OTuple items => Ok items
  | OTensor t =>
      match tensor_rows t with
      | Some rows => Ok (OTensor <$> rows)
      | None => Raise (TypeError "iteration over a 0-d tensor")
      end
  end.

(** [a, b = v] *)
Definition unpack2 (v : Output Tensor)
  : Result (Output Tensor * Output Tensor) :=
  match py_iter v with
  | Raise e => Raise e
  | Ok [a; b] => Ok (a, b)
  | Ok items => Raise (ValueError (unpack_msg 2 (length items)))
  end.

Definition training_objects : list string := ["generator"; "discriminator"].

Definition training_object_msg : string :=
  "training_object should be " +:+ dquote +:+ "generator" +:+ dquote
  +:+ " or " +:+ dquote +:+ "discriminator" +:+ dquote.

(** [_USGAN.forward(self, inputs, training_object, training)] *)
Definition forward (inputs : gmap string (Input Tensor))
    (training_object : string) (training : bool)
  : M _USGAN (gmap string (Output Tensor)) :=
  let* _ := py_assert (bool_decide (training_object ∈ training_objects))
                      training_object_msg in
  let results : gmap string (Output Tensor) := ∅ in
  let* '(results, imputed_data) :=
    if training then
      let* '(imputed_data, loss) :=
        if bool_decide (training_object = "discriminator") then
          let* out := call_backbone inputs training_object training in
          let* '(imputed_data, discrimination_loss) := lift (unpack2 out) in
          let loss := discrimination_loss in
          ret (imputed_data, loss)
        else
          let* out := call_backbone inputs training_object training in
          let* '(imputed_data, generation_loss) := lift (unpack2 out) in
          let loss := generation_loss in
          ret (imputed_data, loss)
      in
      ret (<["loss" := loss]> results, imputed_data)
    else
      let* imputed_data := call_backbone inputs training_object training in
      ret (results, imputed_data)
  in
  ret (<["imputed_data" := imputed_data]> results).

(** The defaults of the signature: [training_object="generator"],
    [training=True]. *)
Definition forward_default (inputs : gmap string (Input Tensor))
  : M _USGAN (gmap string (Output Tensor)) :=
  forward inputs "generator" true.

End Model.

End USGAN.

(** ** SAITS: [pypots/imputation/saits/model.py] *)

Module SAITS.

(** A dataset argument, [Union[dict, str]]: a dict of arrays, or the path
    of a data file. *)
Inductive DataSrc (Array : Type) : Type :=
| DataDict (d : gmap string Array)
| DataPath (path : string).
Arguments DataDict {Array} d.
Arguments DataPath {Array} path.

(** A Python number, as the dropout rates take it ([float], default [0]). *)
Inductive number (Float : Type) : Type :=
| NInt (z : Z)
| NFloat (f : Float).
Arguments NInt {Float} z.
Arguments NFloat {Float} f.

(** What a prediction dict holds: an array, or a dict of arrays. *)
Inductive PredVal (Array : Type) : Type :=
| PArray (a : Array)
| PDict (d : gmap string Array).
Arguments PArray {Array} a.
Arguments PDict {Array} d.

(** The collaborators of [SAITS] that are not in the two modelled files:
    torch, numpy, the data classes, the optimizer, the [_SAITS] module and
    the part of [BaseNNImputer] that does not look at the attributes of the
    subclass.  [Env] is the world they act on (files, devices, random
    state); a call threads it and may raise. *)
Class Framework : Type := {
  Env : Type;
  Float : Type;
  (** [torch.Tensor] and [numpy.ndarray] *)
  Tensor : Type;
  Array : Type;
  (** the [_SAITS] torch module, with its parameters and its mode *)
  Net : Type;
  StateDict : Type;
  Dataset : Type;
  Loader : Type;
  Optimizer : Type;
  LossFn : Type;
  Device : Type;
  (** the attributes that [BaseNNImputer] keeps on the object *)
  Base : Type;
  batch_size : Base -> Z;
  num_workers : Base -> Z;
  best_model_dict : Base -> option StateDict;
  (** [BaseNNImputer.__init__(batch_size, epochs, patience, num_workers,
      device, saving_path, model_saving_strategy)] *)
  BaseNNImputer_init :
    Z -> Z -> option Z -> Z -> option Device -> option string ->
    option string -> Env -> Result Base * Env;
  _print_model_size : Base -> Net -> Env -> Result unit * Env;
  _send_model_to_given_device : Base -> Net -> Env -> Result Net * Env;
  _send_data_to_given_device :
    Base -> list Tensor -> Env -> Result (list Tensor) * Env;
  (** [_SAITS(n_layers, n_steps, n_features, d_model, d_ffn, n_heads, d_k,
      d_v, dropout, attn_dropout, diagonal_attention_mask, ORT_weight,
      MIT_weight)] *)
  _SAITS :
    Z -> Z -> Z -> Z -> Z -> Z -> Z -> Z -> number Float -> number Float ->
    bool -> Z -> Z -> Env -> Result Net * Env;
  (** [model.forward(inputs, diagonal_attention_mask, training)] *)
  Net_forward :
    Net -> gmap string Tensor -> bool -> bool ->
    Env -> Result (gmap string Tensor) * Env;
  (** [model.eval()] and [model.load_state_dict(state_dict)] *)
  Net_eval : Net -> Net;
  Net_load_state_dict : Net -> option StateDict -> Result Net;
  (** [torch.cat], [t.cpu().numpy()] (with or without [detach]) and
      [np.concatenate] *)
  torch_cat : list Tensor -> Result Tensor;
  to_numpy : Tensor -> Array;
  np_concatenate : list Array -> Result Array;
  (** [DataLoader(dataset, batch_size, shuffle, num_workers)], and the
      batches it yields when it is iterated: a loader is finite *)
  DataLoader : Dataset -> Z -> bool -> Z -> Env -> Result Loader * Env;
  Loader_batches : Loader -> Env -> Result (list (list Tensor)) * Env;
  (** [DatasetForSAITS(data, return_X_ori, return_labels, file_type)] and
      [BaseDataset] with the same arguments *)
  DatasetForSAITS :
    DataSrc Array -> bool -> bool -> string -> Env -> Result Dataset * Env;
  BaseDataset :
    DataSrc Array -> bool -> bool -> string -> Env -> Result Dataset * Env;
  (** the keys of the data file at a path *)
  file_keys : string -> Env -> Result (gset string) * Env;
  (** [optimizer.init_optimizer(params)], the default loss [calc_mae] and
      the default optimizer [Adam()] *)
  init_optimizer : Optimizer -> Net -> Env -> Result Optimizer * Env;
  calc_mae : LossFn;
  Adam : Optimizer
}.

Section Model.

Context {fw : Framework}.

(** The attributes of a [SAITS] object. *)
Record SAITS : Type := Build_SAITS {
  base : Base;
  n_steps : Z;
  n_features : Z;
  n_layers : Z;
  d_model : Z;
  d_ffn : Z;
  n_heads : Z;
  d_k : Z;
  d_v : Z;
  dropout : number Float;
  attn_dropout : number Float;
  diagonal_attention_mask : bool;
  ORT_weight : Z;
  MIT_weight : Z;
  model : Net;
  customized_loss_func : LossFn;
  optimizer : option Optimizer
}.

(** [self.model = m] *)
Definition with_model (m : Net) (self : SAITS) : SAITS :=
  {| base := base self; n_steps := n_steps self;
     n_features := n_features self; n_layers := n_layers self;
     d_model := d_model self; d_ffn := d_ffn self; n_heads := n_heads self;
     d_k := d_k self; d_v := d_v self; dropout := dropout self;
     attn_dropout := attn_dropout self;
     diagonal_attention_mask := diagonal_attention_mask self;
     ORT_weight := ORT_weight self; MIT_weight := MIT_weight self;
     model := m; customized_loss_func := customized_loss_func self;
     optimizer := optimizer self |}.

(** The methods of [BaseNNImputer] that work on the whole object: they
    may change it, also when they raise. *)
Class BaseMethods : Type := {
  (** [self._train_model(training_loader, val_loader)] *)
  _train_model :
    SAITS -> Loader -> option Loader -> Env -> Result unit * (SAITS * Env);
  (** [self._auto_save_model_if_necessary(confirm_saving)] *)
  _auto_save_model_if_necessary :
    SAITS -> bool -> Env -> Result unit * (SAITS * Env)
}.

Context {bm : BaseMethods}.

(** A call into a collaborator, with the arguments that matter. *)
Inductive Event : Type :=
| EBaseInit (batch_size epochs : Z) (patience : option Z) (num_workers : Z)
    (device : option Device) (saving_path model_saving_strategy : option string)
| EBuildNet (n_layers n_steps n_features d_model d_ffn n_heads d_k d_v : Z)
    (dropout attn_dropout : number Float) (diagonal_attention_mask : bool)
    (ORT_weight MIT_weight : Z)
| EPrintModelSize
| ESendModelToDevice
| EInitOptimizer
| EDatasetForSAITS (data : DataSrc Array) (return_X_ori return_labels : bool)
    (file_type : string)
| EBaseDataset (data : DataSrc Array) (return_X_ori return_labels : bool)
    (file_type : string)
| EDataLoader (dataset : Dataset) (batch_size : Z) (shuffle : bool)
    (num_workers : Z)
| ECheckXOri (val_set : DataSrc Array)
| ETrainModel (training_loader : Loader) (val_loader : option Loader)
| ELoadStateDict (state_dict : option StateDict)
| EEval
| EAutoSave (confirm_saving : bool)
| EIterate (loader : Loader)
| ESendData (data : list Tensor)
| EForward (inputs : gmap string Tensor) (diagonal_attention_mask training : bool)
| ETorchCat (tensors : list Tensor)
| ENpConcatenate (arrays : list Array).

(** The world around the object: the environment of the collaborators,
    the warnings that the methods of [model.py] give to the logger, and
    the calls that these methods make, oldest first.  What a collaborator
    logs or calls in its turn is kept in its environment: [warnings] and
    [trace] do not show it. *)
Record World : Type := Build_World {
  env : Env;
  warnings : list string;
  trace : list Event
}.

(** [logger.warning(msg)] *)
Definition logger_warning (msg : string) : M World unit :=
  fun w => (Ok tt, {| env := env w; warnings := warnings w ++ [msg];
                      trace := trace w |}).

(** A call into a collaborator: it is recorded, then run on the
    environment. *)
Definition call {A} (ev : Event) (f : Env -> Result A * Env) : M World A :=
  fun w =>
    let '(r, e) := f (env w) in
    (r, {| env := e; warnings := warnings w; trace := trace w ++ [ev] |}).

(** A call of a pure collaborator. *)
Definition call_pure {A} (ev : Event) (r : Result A) : M World A :=
  call ev (fun e => (r, e)).

(** *** The constructor *)

Definition d_model_mismatch_msg (d_model n_heads d_k : Z) : string :=
  "‼️ d_model must = n_heads * d_k, it should be divisible by n_heads "
  +:+ "and the result should be equal to d_k, but got d_model="
  +:+ pretty d_model +:+ ", n_heads=" +:+ pretty n_heads
  +:+ ", d_k=" +:+ pretty d_k.

Definition d_model_reset_msg (d_model n_heads d_k : Z) : string :=
  "⚠️ d_model is reset to " +:+ pretty d_model +:+ " = n_heads ("
  +:+ pretty n_heads +:+ ") * d_k (" +:+ pretty d_k +:+ ")".

(** [SAITS.__init__]: the base class is set up, [d_model] is checked
    against [n_heads * d_k], the hyperparameters are stored, and the
    network, the loss and the optimizer are set up.  The assignments to
    the attributes of [self] are the fields of the object that is
    returned; [_SAITS] is called with the values that were just stored.
    The arguments are integers, as the signature annotates them. *)
Definition __init__
    (n_steps n_features n_layers d_model d_ffn n_heads d_k d_v : Z)
    (dropout attn_dropout : number Float) (diagonal_attention_mask : bool)
    (ORT_weight MIT_weight batch_size epochs : Z) (patience : option Z)
    (customized_loss_func : LossFn) (optimizer : option Optimizer)
    (num_workers : Z) (device : option Device)
    (saving_path model_saving_strategy : option string)
  : M World SAITS :=
  let* base :=
    call (EBaseInit batch_size epochs patience num_workers device
            saving_path model_saving_strategy)
         (BaseNNImputer_init batch_size epochs patience num_workers device
            saving_path model_saving_strategy) in
  let* d_model :=
    if bool_decide (d_model ≠ n_heads * d_k)%Z then
      let* _ := logger_warning (d_model_mismatch_msg d_model n_heads d_k) in
      let d_model := (n_heads * d_k)%Z in
      let* _ := logger_warning (d_model_reset_msg d_model n_heads d_k) in
      ret d_model
    else ret d_model in
  let* model :=
    call (EBuildNet n_layers n_steps n_features d_model d_ffn n_heads d_k d_v
            dropout attn_dropout diagonal_attention_mask ORT_weight MIT_weight)
         (_SAITS n_layers n_steps n_features d_model d_ffn n_heads d_k d_v
            dropout attn_dropout diagonal_attention_mask ORT_weight MIT_weight)
  in
  let* _ := call EPrintModelSize (_print_model_size base model) in
  let* model :=
    call ESendModelToDevice (_send_model_to_given_device base model) in
  let* optimizer :=
    match optimizer with
    | Some opt =>
        let* opt := call EInitOptimizer (init_optimizer opt model) in
        ret (Some opt)
    | None =>
        raise (AttributeError
                 "'NoneType' object has no attribute 'init_optimizer'")
    end in
  ret {| base := base; n_steps := n_steps; n_features := n_features;
         n_layers := n_layers; d_model := d_model; d_ffn := d_ffn;
         n_heads := n_heads; d_k := d_k; d_v := d_v; dropout := dropout;
         attn_dropout := attn_dropout;
         diagonal_attention_mask := diagonal_attention_mask;
         ORT_weight := ORT_weight; MIT_weight := MIT_weight; model := model;
         customized_loss_func := customized_loss_func;
         optimizer := optimizer |}.

(** The constructor with the defaults of its signature: [dropout=0],
    [attn_dropout=0], [diagonal_attention_mask=True], [ORT_weight=1],
    [MIT_weight=1], [batch_size=32], [epochs=100], [patience=None],
    [customized_loss_func=calc_mae], [optimizer=Adam()], [num_workers=0],
    [device=None], [saving_path=None], [model_saving_strategy="best"]. *)
Definition __init__default
    (n_steps n_features n_layers d_model d_ffn n_heads d_k d_v : Z)
  : M World SAITS :=
  __init__ n_steps n_features n_layers d_model d_ffn n_heads d_k d_v
    (NInt 0) (NInt 0) true 1 1 32 100 None calc_mae (Some Adam) 0 None None
    (Some "best").

(** *** Methods: code that runs on an object in a world *)

(** A computation on the world alone, run inside a method. *)
Definition sys {A} (m : M World A) : M (SAITS * World) A :=
  fun s => let '(r, w) := m s.2 in (r, (s.1, w)).

(** [self.attr] *)
Definition attr {A} (f : SAITS -> A) : M (SAITS * World) A :=
  fun s => (Ok (f s.1), s).

(** [self.model = m] *)
Definition set_model (m : Net) : M (SAITS * World) unit :=
  fun s => (Ok tt, (with_model m s.1, s.2)).

(** A call of a method of the base class on the object. *)
Definition method {A} (ev : Event)
    (f : SAITS -> Env -> Result A * (SAITS * Env)) : M (SAITS * World) A :=
  fun s =>
    let '(r, (self, e)) := f s.1 (env s.2) in
    (r, (self, {| env := e; warnings := warnings s.2;
                  trace := trace s.2 ++ [ev] |})).

(** [a, b, c = items] *)
Definition unpack3 {A} (items : list A) : Result (A * A * A) :=
  match items with
  | [a; b; c] => Ok (a, b, c)
  | _ => Raise (ValueError (unpack_msg 3 (length items)))
  end.

(** [a, b, c, d, e = items] *)
Definition unpack5 {A} (items : list A) : Result (A * A * A * A * A) :=
  match items with
  | [a; b; c; d; e] => Ok (a, b, c, d, e)
  | _ => Raise (ValueError (unpack_msg 5 (length items)))
  end.

(** [self._send_data_to_given_device(data)] *)
Definition send_data (data : list Tensor) : M (SAITS * World) (list Tensor) :=
  let* base := attr base in
  sys (call (ESendData data) (_send_data_to_given_device base data)).

Definition _assemble_input_for_training (data : list Tensor)
  : M (SAITS * World) (gmap string Tensor) :=
  let* sent := send_data data in
  let* '(indices, X, missing_mask, X_ori, indicating_mask) :=
    lift (unpack5 sent) in
  let inputs : gmap string Tensor :=
    <["indicating_mask" := indicating_mask]>
      (<["X_ori" := X_ori]>
         (<["missing_mask" := missing_mask]> (<["X" := X]> ∅))) in
  ret inputs.

Definition _assemble_input_for_validating (data : list Tensor)
  : M (SAITS * World) (gmap string Tensor) :=
  _assemble_input_for_training data.

Definition _assemble_input_for_testing (data : list Tensor)
  : M (SAITS * World) (gmap string Tensor) :=
  let* sent := send_data data in
  let* '(indices, X, missing_mask) := lift (unpack3 sent) in
  let inputs : gmap string Tensor :=
    <["missing_mask" := missing_mask]> (<["X" := X]> ∅) in
  ret inputs.

(** *** [fit] *)

(** The keys of a dataset argument: those of the dict, or those of the
    data file at the path. *)
Definition dataset_keys (data : DataSrc Array)
  : Env -> Result (gset string) * Env :=
  match data with
  | DataDict d => fun e => (Ok (dom d), e)
  | DataPath path => file_keys path
  end.

(** Modelled from the spec: [check_X_ori_in_val_set], of
    [pypots/data/checking.py], is not among the source files.  It tells
    whether the validation set contains the key 'X_ori'. *)
Definition check_X_ori_in_val_set (val_set : DataSrc Array)
  : Env -> Result bool * Env :=
  fun e =>
    match dataset_keys val_set e with
    | (Ok keys, e') => (Ok (bool_decide ("X_ori" ∈ keys)), e')
    | (Raise x, e') => (Raise x, e')
    end.

Definition val_set_msg : string :=
  "val_set must contain 'X_ori' for model validation.".

(** [SAITS.fit(self, train_set, val_set, file_type)] *)
Definition fit (train_set : DataSrc Array) (val_set : option (DataSrc Array))
    (file_type : string) : M (SAITS * World) unit :=
  (* Step 1: wrap the input data with classes Dataset and DataLoader *)
  let* training_set :=
    sys (call (EDatasetForSAITS train_set false false file_type)
              (DatasetForSAITS train_set false false file_type)) in
  let* bs := attr (fun self => batch_size (base self)) in
  let* nw := attr (fun self => num_workers (base self)) in
  let* training_loader :=
    sys (call (EDataLoader training_set bs true nw)
              (DataLoader training_set bs true nw)) in
  let val_loader : option Loader := None in
  let* val_loader :=
    match val_set with
    | Some val_set =>
        let* found :=
          sys (call (ECheckXOri val_set) (check_X_ori_in_val_set val_set)) in
        if negb found then raise (ValueError val_set_msg)
        else
          let* val_set :=
            sys (call (EDatasetForSAITS val_set true false file_type)
                      (DatasetForSAITS val_set true false file_type)) in
          let* bs := attr (fun self => batch_size (base self)) in
          let* nw := attr (fun self => num_workers (base self)) in
          let* val_loader :=
            sys (call (EDataLoader val_set bs false nw)
                      (DataLoader val_set bs false nw)) in
          ret (Some val_loader)
    | None => ret val_loader
    end in
  (* Step 2: train the model and freeze it *)
  let* _ :=
    method (ETrainModel training_loader val_loader)
           (fun self => _train_model self training_loader val_loader) in
  let* net := attr model in
  let* best := attr (fun self => best_model_dict (base self)) in
  let* net :=
    sys (call_pure (ELoadStateDict best) (Net_load_state_dict net best)) in
  let* _ := set_model net in
  let* net := attr model in
  let* net := sys (call_pure EEval (Ok (Net_eval net))) in
  let* _ := set_model net in
  (* Step 3: save the model if necessary *)
  method (EAutoSave true)
         (fun self => _auto_save_model_if_necessary self true).

(** The defaults of the signature: [val_set=None], [file_type="h5py"]. *)
Definition fit_default (train_set : DataSrc Array) : M (SAITS * World) unit :=
  fit train_set None "h5py".

(** *** [predict] and [impute] *)

(** The four collectors of [predict]: imputations, and the attention and
    combining weights of each batch. *)
Definition Collectors : Type :=
  list Tensor * list Array * list Array * list Array.

(** The loop of [predict] over the batches of the test loader, with the
    collectors as its state.  The loader hands over its batches at once,
    before the first pass of the network. *)
Fixpoint predict_loop (batches : list (list Tensor))
    (diagonal_attention_mask return_latent_vars : bool) (acc : Collectors)
  : M (SAITS * World) Collectors :=
  match batches with
  | [] => ret acc
  | data :: batches =>
      let '(imputation_collector, first_DMSA_attn_weights_collector,
            second_DMSA_attn_weights_collector,
            combining_weights_collector) := acc in
      let* inputs := _assemble_input_for_testing data in
      let* net := attr model in
      let* results :=
        sys (call (EForward inputs diagonal_attention_mask false)
                  (Net_forward net inputs diagonal_attention_mask false)) in
      let* imputed_data := lift (getitem results "imputed_data") in
      let imputation_collector := imputation_collector ++ [imputed_data] in
      let* '(first_DMSA_attn_weights_collector,
             second_DMSA_attn_weights_collector,
             combining_weights_collector) :=
        if return_latent_vars then
          let* first := lift (getitem results "first_DMSA_attn_weights") in
          let* second := lift (getitem results "second_DMSA_attn_weights") in
          let* combining := lift (getitem results "combining_weights") in
          ret (first_DMSA_attn_weights_collector ++ [to_numpy first],
               second_DMSA_attn_weights_collector ++ [to_numpy second],
               combining_weights_collector ++ [to_numpy combining])
        else
          ret (first_DMSA_attn_weights_collector,
               second_DMSA_attn_weights_collector,
               combining_weights_collector) in
      predict_loop batches diagonal_attention_mask return_latent_vars
        (imputation_collector, first_DMSA_attn_weights_collector,
         second_DMSA_attn_weights_collector, combining_weights_collector)
  end.

(** [np.concatenate(arrays)] *)
Definition concatenate (arrays : list Array) : M (SAITS * World) Array :=
  sys (call_pure (ENpConcatenate arrays) (np_concatenate arrays)).

(** [SAITS.predict(self, test_set, file_type, diagonal_attention_mask,
    return_latent_vars)] *)
Definition predict (test_set : DataSrc Array) (file_type : string)
    (diagonal_attention_mask return_latent_vars : bool)
  : M (SAITS * World) (gmap string (PredVal Array)) :=
  (* Step 1: wrap the input data with classes Dataset and DataLoader *)
  let* net := attr model in
  let* net := sys (call_pure EEval (Ok (Net_eval net))) in
  let* _ := set_model net in
  let* test_set :=
    sys (call (EBaseDataset test_set false false file_type)
              (BaseDataset test_set false false file_type)) in
  let* bs := attr (fun self => batch_size (base self)) in
  let* nw := attr (fun self => num_workers (base self)) in
  let* test_loader :=
    sys (call (EDataLoader test_set bs false nw)
              (DataLoader test_set bs false nw)) in
  (* Step 2: process the data with the model *)
  let* batches :=
    sys (call (EIterate test_loader) (Loader_batches test_loader)) in
  let* '(imputation_collector, first_DMSA_attn_weights_collector,
         second_DMSA_attn_weights_collector, combining_weights_collector) :=
    predict_loop batches diagonal_attention_mask return_latent_vars
      ([], [], [], []) in
  (* Step 3: output collection and return *)
  let* joined :=
    sys (call_pure (ETorchCat imputation_collector)
                   (torch_cat imputation_collector)) in
  let imputation := to_numpy joined in
  let result_dict : gmap string (PredVal Array) :=
    <["imputation" := PArray imputation]> ∅ in
  let* result_dict :=
    if return_latent_vars then
      let* first := concatenate first_DMSA_attn_weights_collector in
      let* second := concatenate second_DMSA_attn_weights_collector in
      let* combining := concatenate combining_weights_collector in
      let latent_var_collector : gmap string Array :=
        <["combining_weights" := combining]>
          (<["second_DMSA_attn_weights" := second]>
             (<["first_DMSA_attn_weights" := first]> ∅)) in
      ret (<["latent_vars" := PDict latent_var_collector]> result_dict)
    else ret result_dict in
  ret result_dict.

(** The defaults of [predict] for the arguments that [impute] leaves out:
    [diagonal_attention_mask=True], [return_latent_vars=False]. *)
Definition predict_diagonal_attention_mask : bool := true.
Definition predict_return_latent_vars : bool := false.

Definition impute_msg : string :=
  "🚨DeprecationWarning: The method impute is deprecated. "
  +:+ "Please use `predict` instead.".

(** [SAITS.impute(self, X, file_type)] *)
Definition impute (X : DataSrc Array) (file_type : string)
  : M (SAITS * World) (PredVal Array) :=
  let* _ := sys (logger_warning impute_msg) in
  let* results_dict :=
    predict X file_type predict_diagonal_attention_mask
      predict_return_latent_vars in
  lift (getitem results_dict "imputation").

(** The default of the signature: [file_type="h5py"]. *)
Definition impute_default (X : DataSrc Array)
  : M (SAITS * World) (PredVal Array) :=
  impute X "h5py".

(** *** Contracts of the collaborators *)



(** The world with other warnings. *)
Definition set_warnings (ws : list string) (w : World) : World :=
  {| env := env w; warnings := ws; trace := trace w |}.

(** A method that neither reads nor gives warnings: it runs the same
    whatever the warnings are. *)
Definition ignores_warnings {A} (m : M (SAITS * World) A) : Prop :=
  forall self w ws,
    m (self, set_warnings ws w)
    = (let '(r, (self', w')) := m (self, w) in
       (r, (self', set_warnings ws w'))).

(** The collaborators of [predict] do their part: the device transfer
    keeps the number of items of a batch, the network returns its four
    results, and tensors and arrays can be joined when there are some. *)
Record serves_predict (diagonal_attention_mask : bool) : Prop := {
  serves_send : forall b data e,
    exists sent e',
      _send_data_to_given_device b data e = (Ok sent, e')
      /\ length sent = length data;
  serves_forward : forall net inputs e,
    exists results e',
      Net_forward net inputs diagonal_attention_mask false e = (Ok results, e')
      /\ is_Some (results !! "imputed_data")
      /\ is_Some (results !! "first_DMSA_attn_weights")
      /\ is_Some (results !! "second_DMSA_attn_weights")
      /\ is_Some (results !! "combining_weights");
  serves_cat : forall tensors, tensors <> [] -> is_Ok (torch_cat tensors);
  serves_concatenate : forall arrays,
    arrays <> [] -> is_Ok (np_concatenate arrays)
}.

End Model.

End SAITS.

(** ** Concrete collaborators

    Small stand-ins for the collaborators, on which the modelled code can
    be run: tensors and arrays are lists of integers. *)

Module Demo.

(** A backbone that counts its forward passes.  In training it returns
    the imputation with the loss of the requested objective (7 for the
    discriminator, 9 for the generator); otherwise the imputation alone. *)
Definition backbone_forward (inputs : gmap string (USGAN.Input (list Z)))
    (training_object : string) (training : bool) (passes : nat)
  : Result (USGAN.Output (list Z)) * nat :=
  let imputed := USGAN.OTensor [1; 2; 3]%Z in
  let loss :=
    if bool_decide (training_object = "discriminator") then [7]%Z
    else [9]%Z in
  (Ok (if training then USGAN.OTuple [imputed; USGAN.OTensor loss]
       else imputed),
   S passes).

(** Tensors are iterated item by item; the empty tensor stands for a 0-d
    tensor. *)
Definition rows (t : list Z) : option (list (list Z)) :=
  match t with
  | [] => None
  | _ => Some ((fun z => [z]) <$> t)
  end.

Definition usgan_backbone : USGAN.Backbone :=
  {| USGAN.Tensor := list Z;
     USGAN.BState := nat;
     USGAN.tensor_rows := rows;
     USGAN.BackboneUSGAN_forward := backbone_forward |}.

Definition usgan_inputs : gmap string (USGAN.Input (list Z)) :=
  <["X" := USGAN.ITensor [1; 0; 3]%Z]> ∅.

Definition usgan_self : @USGAN._USGAN usgan_backbone :=
  @USGAN.Build_USGAN usgan_backbone 0%nat [].

(** A framework on lists of integers.  A network is its weights and its
    training flag; a dataset is the array under the key 'X'; a loader
    yields one batch with the indices, the data and the missing mask. *)
Definition dataset_of (data : SAITS.DataSrc (list Z)) (return_X_ori
    return_labels : bool) (file_type : string) (e : unit)
  : Result (list Z) * unit :=
  match data with
  | SAITS.DataDict d =>
      match d !! "X" with
      | Some x => (Ok x, e)
      | None => (Raise (KeyError "'X'"), e)
      end
  | SAITS.DataPath path => (Raise (Exn "FileNotFoundError" path), e)
  end.

Definition net_forward (net : Z * bool) (inputs : gmap string (list Z))
    (diagonal_attention_mask training : bool) (e : unit)
  : Result (gmap string (list Z)) * unit :=
  (Ok (<["combining_weights" := [3]%Z]>
         (<["second_DMSA_attn_weights" := [2]%Z]>
            (<["first_DMSA_attn_weights" := [1]%Z]>
               (<["imputed_data" := default [] (inputs !! "X")]> ∅)))), e).

Definition join (what : string) (parts : list (list Z)) : Result (list Z) :=
  match parts with
  | [] => Raise (Exn what "expected a non-empty list")
  | _ => Ok (concat parts)
  end.

Definition saits_framework : SAITS.Framework :=
  {| SAITS.Env := unit;
     SAITS.Float := Z;
     SAITS.Tensor := list Z;
     SAITS.Array := list Z;
     SAITS.Net := Z * bool;
     SAITS.StateDict := Z;
     SAITS.Dataset := list Z;
     SAITS.Loader := list (list (list Z));
     SAITS.Optimizer := unit;
     SAITS.LossFn := unit;
     SAITS.Device := string;
     SAITS.Base := Z * Z * option Z;
     SAITS.batch_size := fun b => b.1.1;
     SAITS.num_workers := fun b => b.1.2;
     SAITS.best_model_dict := fun b => b.2;
     SAITS.BaseNNImputer_init :=
       fun batch_size epochs patience num_workers device saving_path
           model_saving_strategy e =>
         (Ok (batch_size, num_workers, None), e);
     SAITS._print_model_size := fun _ _ e => (Ok tt, e);
     SAITS._send_model_to_given_device := fun _ net e => (Ok net, e);
     SAITS._send_data_to_given_device := fun _ data e => (Ok data, e);
     SAITS._SAITS :=
       fun n_layers n_steps n_features d_model d_ffn n_heads d_k d_v dropout
           attn_dropout diagonal_attention_mask ORT_weight MIT_weight e =>
         (Ok (d_model, true), e);
     SAITS.Net_forward := net_forward;
     SAITS.Net_eval := fun net => (net.1, false);
     SAITS.Net_load_state_dict :=
       fun net state_dict =>
         match state_dict with
         | Some weights => Ok (weights, net.2)
         | None => Raise (TypeError "state_dict is None")
         end;
     SAITS.torch_cat := join "RuntimeError";
     SAITS.to_numpy := fun t => t;
     SAITS.np_concatenate := join "ValueError";
     SAITS.DataLoader :=
       fun dataset batch_size shuffle num_workers e =>
         (Ok [[[0%Z]; dataset; (fun _ => 1%Z) <$> dataset]], e);
     SAITS.Loader_batches := fun loader e => (Ok loader, e);
     SAITS.DatasetForSAITS := dataset_of;
     SAITS.BaseDataset := dataset_of;
     SAITS.file_keys := fun path e => (Raise (Exn "FileNotFoundError" path), e);
     SAITS.init_optimizer := fun opt _ e => (Ok opt, e);
     SAITS.calc_mae := tt;
     SAITS.Adam := tt |}.

(** Training records the weights 5 as the best ones and leaves the
    network at other weights; saving does nothing. *)
Definition train_model (self : @SAITS.SAITS saits_framework)
    (training_loader : list (list (list Z)))
    (val_loader : option (list (list (list Z)))) (e : unit)
  : Result unit * (@SAITS.SAITS saits_framework * unit) :=
  let trained : @SAITS.SAITS saits_framework :=
    @SAITS.Build_SAITS saits_framework
      ((SAITS.base self).1, Some 5%Z)
      (SAITS.n_steps self) (SAITS.n_features self) (SAITS.n_layers self)
      (SAITS.d_model self) (SAITS.d_ffn self) (SAITS.n_heads self)
      (SAITS.d_k self) (SAITS.d_v self) (SAITS.dropout self)
      (SAITS.attn_dropout self) (SAITS.diagonal_attention_mask self)
      (SAITS.ORT_weight self) (SAITS.MIT_weight self) (6%Z, true)
      (SAITS.customized_loss_func self) (SAITS.optimizer self) in
  (Ok tt, (trained, e)).

Definition saits_methods : @SAITS.BaseMethods saits_framework :=
  {| SAITS._train_model := train_model;
     SAITS._auto_save_model_if_necessary := fun self _ e => (Ok tt, (self, e)) |}.

Definition world0 : @SAITS.World saits_framework :=
  @SAITS.Build_World saits_framework tt [] [].

(** [SAITS(n_steps=4, n_features=3, n_layers=2, d_model=10, d_ffn=16,
    n_heads=2, d_k=4, d_v=4)]: [d_model] is not [n_heads * d_k]. *)
Definition saits_new : M (@SAITS.World saits_framework)
                         (@SAITS.SAITS saits_framework) :=
  SAITS.__init__default (fw := saits_framework) 4 3 2 10 16 2 4 4.

(** The object that this constructor call returns. *)
Definition saits_self : @SAITS.SAITS saits_framework :=
  @SAITS.Build_SAITS saits_framework (32%Z, 0%Z, None) 4 3 2 8 16 2 4 4
    (SAITS.NInt 0) (SAITS.NInt 0) true 1 1 (8%Z, true) tt (Some tt).

Definition data_X : SAITS.DataSrc (list Z) :=
  SAITS.DataDict (<["X" := [1; 0; 3]%Z]> ∅).

Definition data_X_ori : SAITS.DataSrc (list Z) :=
  SAITS.DataDict (<["X_ori" := [1; 2; 3]%Z]> (<["X" := [1; 0; 3]%Z]> ∅)).

(** The outcome of the constructor call, of [fit] with a validation set
    that holds 'X_ori' and with one that does not, and of [predict] with
    the latent variables. *)
Definition saits_built
  : Result (@SAITS.SAITS saits_framework) * @SAITS.World saits_framework :=
  Eval vm_compute in saits_new world0.

Definition saits_fitted
  : Result unit * (@SAITS.SAITS saits_framework * @SAITS.World saits_framework) :=
  Eval vm_compute in
    SAITS.fit (bm := saits_methods) data_X (Some data_X_ori) "h5py"
      (saits_self, world0).

Definition saits_rejected
  : Result unit * (@SAITS.SAITS saits_framework * @SAITS.World saits_framework) :=
  Eval vm_compute in
    SAITS.fit (bm := saits_methods) data_X (Some data_X) "h5py"
      (saits_self, world0).

Definition saits_predicted
  : Result (gmap string (SAITS.PredVal (list Z)))
    * (@SAITS.SAITS saits_framework * @SAITS.World saits_framework) :=
  Eval vm_compute in
    SAITS.predict (fw := saits_framework) data_X "h5py" true true
      (saits_self, world0).

End Demo.

(** ** Runs and their calls *)

Module Runs.

Section Events.

Import SAITS.

Context {fw : Framework}.

(** The calls made between two worlds of one run, oldest first. *)
Definition new_events (w w' : World) : list Event :=
  drop (length (trace w)) (trace w').


(** The calls that the loop of [predict] makes on the batches of a loader:
    for each batch, in the order of the loader, the transfer of the batch
    to the device and then one pass of the network outside training. *)
Fixpoint batch_passes (diagonal_attention_mask : bool)
    (batches : list (list Tensor)) (passes : list Event) : Prop :=
  match batches, passes with
  | [], [] => True
  | data :: batches, ESendData sent :: EForward _ mask training :: passes =>
      sent = data /\ mask = diagonal_attention_mask /\ training = false
      /\ batch_passes diagonal_attention_mask batches passes
  | _, _ => False
  end.

End Events.

End Runs.

(** ** More concrete collaborators

    Stand-ins that fail or that return results of another shape. *)

Module Cases.

(** A backbone that returns, in training, a tuple of [k] tensors. *)
Definition tuple_backbone (k : nat) : USGAN.Backbone :=
  {| USGAN.Tensor := list Z;
     USGAN.BState := nat;
     USGAN.tensor_rows := Demo.rows;
     USGAN.BackboneUSGAN_forward :=
       fun inputs training_object training passes =>
         (Ok (if training then USGAN.OTuple (replicate k (USGAN.OTensor [1%Z]))
              else USGAN.OTensor [1%Z]),
          S passes) |}.

(** A backbone whose forward pass raises. *)
Definition failing_backbone : USGAN.Backbone :=
  {| USGAN.Tensor := list Z;
     USGAN.BState := nat;
     USGAN.tensor_rows := Demo.rows;
     USGAN.BackboneUSGAN_forward :=
       fun inputs training_object training passes =>
         (Raise (Exn "RuntimeError" "out of memory"), S passes) |}.

(** The framework of [Demo], but for three choices: whether the base
    class can be set up, the batches that every loader yields, and the
    dict that the network returns. *)
Definition framework (base_error : option exn)
    (batches : list (list (list Z))) (results : gmap string (list Z))
  : SAITS.Framework :=
  {| SAITS.Env := unit;
     SAITS.Float := Z;
     SAITS.Tensor := list Z;
     SAITS.Array := list Z;
     SAITS.Net := Z * bool;
     SAITS.StateDict := Z;
     SAITS.Dataset := list Z;
     SAITS.Loader := list (list (list Z));
     SAITS.Optimizer := unit;
     SAITS.LossFn := unit;
     SAITS.Device := string;
     SAITS.Base := Z * Z * option Z;
     SAITS.batch_size := fun b => b.1.1;
     SAITS.num_workers := fun b => b.1.2;
     SAITS.best_model_dict := fun b => b.2;
     SAITS.BaseNNImputer_init :=
       fun batch_size epochs patience num_workers device saving_path
           model_saving_strategy e =>
         match base_error with
         | Some x => (Raise x, e)
         | None => (Ok (batch_size, num_workers, None), e)
         end;
     SAITS._print_model_size := fun _ _ e => (Ok tt, e);
     SAITS._send_model_to_given_device := fun _ net e => (Ok net, e);
     SAITS._send_data_to_given_device := fun _ data e => (Ok data, e);
     SAITS._SAITS :=
       fun n_layers n_steps n_features d_model d_ffn n_heads d_k d_v dropout
           attn_dropout diagonal_attention_mask ORT_weight MIT_weight e =>
         (Ok (d_model, true), e);
     SAITS.Net_forward := fun net inputs mask training e => (Ok results, e);
     SAITS.Net_eval := fun net => (net.1, false);
     SAITS.Net_load_state_dict :=
       fun net state_dict =>
         match state_dict with
         | Some weights => Ok (weights, net.2)
         | None => Raise (TypeError "state_dict is None")
         end;
     SAITS.torch_cat := Demo.join "RuntimeError";
     SAITS.to_numpy := fun t => t;
     SAITS.np_concatenate := Demo.join "ValueError";
     SAITS.DataLoader :=
       fun dataset batch_size shuffle num_workers e => (Ok batches, e);
     SAITS.Loader_batches := fun loader e => (Ok loader, e);
     SAITS.DatasetForSAITS := Demo.dataset_of;
     SAITS.BaseDataset := Demo.dataset_of;
     SAITS.file_keys := fun path e => (Raise (Exn "FileNotFoundError" path), e);
     SAITS.init_optimizer := fun opt _ e => (Ok opt, e);
     SAITS.calc_mae := tt;
     SAITS.Adam := tt |}.

(** An object and a world of such a framework. *)
Definition object (base_error : option exn) (batches : list (list (list Z)))
    (results : gmap string (list Z))
  : @SAITS.SAITS (framework base_error batches results) :=
  @SAITS.Build_SAITS (framework base_error batches results)
    (32%Z, 0%Z, None) 4 3 2 8 16 2 4 4 (SAITS.NInt 0) (SAITS.NInt 0) true 1 1
    (8%Z, true) tt (Some tt).

Definition world (base_error : option exn) (batches : list (list (list Z)))
    (results : gmap string (list Z))
  : @SAITS.World (framework base_error batches results) :=
  @SAITS.Build_World (framework base_error batches results) tt [] [].

(** A framework whose loaders yield no batch. *)
Definition no_batches : SAITS.Framework := framework None [] ∅.



End Cases.

(** ** Properties of [_USGAN.forward] *)

Section USGAN_properties.

Import USGAN.

Context {bb : Backbone}.

Implicit Types (inputs : gmap string (Input Tensor)) (self : _USGAN).
Implicit Types (training_object : string) (training : bool).

Lemma forward_invalid inputs training_object training self :
  training_object ∉ training_objects ->
  forward inputs training_object training self
  = (Raise (AssertionError training_object_msg), self).
Proof.
  intros Hto. unfold forward, bind, py_assert.
  rewrite bool_decide_eq_false_2 by done. reflexivity.
Qed.

(** In training, the backbone is called once and its result is unpacked
    into the imputation and the loss. *)
Lemma forward_training inputs training_object self :
  training_object ∈ training_objects ->
  forward inputs training_object true self
  = match BackboneUSGAN_forward inputs training_object true (backbone self) with
    | (Ok out, b) =>
        match unpack2 out with
        | Ok (imputed_data, loss) =>
            (Ok (<["imputed_data" := imputed_data]> (<["loss" := loss]> ∅)),
             after_call self inputs training_object true b)
        | Raise e => (Raise e, after_call self inputs training_object true b)
        end
    | (Raise e, b) => (Raise e, after_call self inputs training_object true b)
    end.
Proof.
  intros Hto. unfold forward, bind, py_assert, call_backbone, lift, ret.
  rewrite bool_decide_eq_true_2 by done. simpl.
  destruct (bool_decide (training_object = "discriminator"));
    destruct (BackboneUSGAN_forward _ _ _ _) as [[out|e] b]; simpl; try done;
    destruct (unpack2 out) as [[imputed_data loss]|e]; done.
Qed.

(** Outside training, the backbone is called once and its result is the
    imputation. *)
Lemma forward_not_training inputs training_object self :
  training_object ∈ training_objects ->
  forward inputs training_object false self
  = match BackboneUSGAN_forward inputs training_object false (backbone self) with
    | (Ok out, b) =>
        (Ok (<["imputed_data" := out]> ∅),
         after_call self inputs training_object false b)
    | (Raise e, b) => (Raise e, after_call self inputs training_object false b)
    end.
Proof.
  intros Hto. unfold forward, bind, py_assert, call_backbone, lift, ret.
  rewrite bool_decide_eq_true_2 by done. simpl.
  destruct (BackboneUSGAN_forward _ _ _ _) as [[out|e] b]; done.
Qed.

(** C1: for a valid [training_object], a dict returned by
    [_USGAN.forward] always holds the key "imputed_data", and it holds the
    key "loss" exactly when [training] is true; and [forward] does return
    a dict whenever the backbone returns and, in training, its result
    unpacks into two values. *)
Theorem usgan_forward_result_keys inputs training_object training self :
  training_object ∈ training_objects ->
  (forall results self',
      forward inputs training_object training self = (Ok results, self') ->
      "imputed_data" ∈ dom results
      /\ ("loss" ∈ dom results <-> training = true))
  /\ (forall out b,
        BackboneUSGAN_forward inputs training_object training (backbone self)
        = (Ok out, b) ->
        (training = true -> is_Ok (unpack2 out)) ->
        exists results self',
          forward inputs training_object training self = (Ok results, self')).
Proof.
  intros Hto. destruct training.
  - rewrite forward_training by done. split.
    + intros results self' Hrun.
      destruct (BackboneUSGAN_forward _ _ _ _) as [[out|e] b]; [|done].
      destruct (unpack2 out) as [[imputed_data loss]|e]; [|done].
      injection Hrun as <- _. rewrite !dom_insert_L. set_solver.
    + intros out b -> [[imputed_data loss] ->]; [done|]. eauto.
  - rewrite forward_not_training by done. split.
    + intros results self' Hrun.
      destruct (BackboneUSGAN_forward _ _ _ _) as [[out|e] b]; [|done].
      injection Hrun as <- _. rewrite dom_insert_L, dom_empty_L.
      split; [set_solver|]. split; [|done].
      rewrite elem_of_union, elem_of_singleton, elem_of_empty.
      by intros [?|[]].
    + intros out b -> _. eauto.
Qed.

(** C3: in training, the "loss" of the result is the loss that the
    backbone returned when it was called with this [training_object]: the
    discrimination loss for "discriminator", the generation loss for
    "generator". *)
Theorem usgan_forward_loss_dispatch inputs training_object self out b
    (imputed_data loss : Output Tensor) :
  training_object = "discriminator" \/ training_object = "generator" ->
  BackboneUSGAN_forward inputs training_object true (backbone self)
  = (Ok out, b) ->
  unpack2 out = Ok (imputed_data, loss) ->
  exists results,
    forward inputs training_object true self
    = (Ok results, after_call self inputs training_object true b)
    /\ results !! "loss" = Some loss.
Proof.
  intros Hto Hcall Hout.
  rewrite forward_training, Hcall, Hout.
  - eexists. split; [done|]. by rewrite lookup_insert_ne, lookup_insert_eq.
  - unfold training_objects. destruct Hto as [-> | ->]; set_solver.
Qed.

(** C4: a [training_object] other than "generator" and "discriminator"
    makes [forward] raise an [AssertionError], whatever the inputs and the
    training flag; the object is left as it was, so the backbone has not
    been called. *)
Theorem usgan_forward_rejects_training_object
    inputs training_object training self :
  training_object <> "generator" ->
  training_object <> "discriminator" ->
  exists msg self',
    forward inputs training_object training self
    = (Raise (AssertionError msg), self')
    /\ calls self' = calls self /\ backbone self' = backbone self.
Proof.
  intros Hg Hd. exists training_object_msg, self.
  rewrite forward_invalid; [done|].
  by intros [->|[->|[]%elem_of_nil]%elem_of_cons]%elem_of_cons.
Qed.

(** C10: for a valid [training_object], the "imputed_data" of the result
    is what the backbone returned as the imputation (the first of the two
    values it returns in training, its whole result otherwise), and the
    backbone was called once, with the same three arguments. *)
Theorem usgan_forward_imputed_data inputs training_object training self out b
    (imputed_data : Output Tensor) :
  training_object ∈ training_objects ->
  BackboneUSGAN_forward inputs training_object training (backbone self)
  = (Ok out, b) ->
  (if training then exists loss, unpack2 out = Ok (imputed_data, loss)
   else imputed_data = out) ->
  exists results self',
    forward inputs training_object training self = (Ok results, self')
    /\ results !! "imputed_data" = Some imputed_data
    /\ backbone self' = b
    /\ calls self' = calls self ++ [(inputs, training_object, training)].
Proof.
  intros Hto Hcall Hout. destruct training.
  - destruct Hout as [loss Hout].
    rewrite forward_training, Hcall, Hout by done.
    do 2 eexists. split; [done|]. by rewrite lookup_insert_eq.
  - subst imputed_data. rewrite forward_not_training, Hcall by done.
    do 2 eexists. split; [done|]. by rewrite lookup_insert_eq.
Qed.

End USGAN_properties.

(** *** [forward] on the concrete backbone *)

Example usgan_forward_generator :
  USGAN.forward (bb := Demo.usgan_backbone) Demo.usgan_inputs "generator" true
    Demo.usgan_self
  = (Ok (<["imputed_data" := USGAN.OTensor [1; 2; 3]%Z]>
           (<["loss" := USGAN.OTensor [9]%Z]> ∅)),
     USGAN.after_call Demo.usgan_self Demo.usgan_inputs "generator" true 1%nat).
Proof. reflexivity. Qed.

Example usgan_forward_evaluation :
  USGAN.forward (bb := Demo.usgan_backbone) Demo.usgan_inputs "discriminator"
    false Demo.usgan_self
  = (Ok (<["imputed_data" := USGAN.OTensor [1; 2; 3]%Z]> ∅),
     USGAN.after_call Demo.usgan_self Demo.usgan_inputs "discriminator" false
       1%nat).
Proof. reflexivity. Qed.

Lemma usgan_forward_result_keys_witness :
  "generator" ∈ USGAN.training_objects
  /\ exists results self',
       USGAN.forward (bb := Demo.usgan_backbone) Demo.usgan_inputs "generator"
         true Demo.usgan_self = (Ok results, self')
       /\ "imputed_data" ∈ dom results
       /\ ("loss" ∈ dom results <-> true = true).
Proof.
  assert (Hto : "generator" ∈ USGAN.training_objects)
    by (unfold USGAN.training_objects; constructor).
  split; [exact Hto|].
  destruct (usgan_forward_result_keys (bb := Demo.usgan_backbone)
              Demo.usgan_inputs "generator" true Demo.usgan_self Hto)
    as [Hkeys Hruns].
  destruct (Hruns _ _ eq_refl) as (results & self' & Hrun).
  - intros _. eexists. reflexivity.
  - exists results, self'. split; [exact Hrun|]. exact (Hkeys _ _ Hrun).
Defined.

Lemma usgan_forward_loss_dispatch_witness :
  exists results,
    USGAN.forward (bb := Demo.usgan_backbone) Demo.usgan_inputs "discriminator"
      true Demo.usgan_self
    = (Ok results,
       USGAN.after_call Demo.usgan_self Demo.usgan_inputs "discriminator" true
         1%nat)
    /\ results !! "loss" = Some (USGAN.OTensor [7]%Z).
Proof.
  apply (usgan_forward_loss_dispatch (bb := Demo.usgan_backbone)
           Demo.usgan_inputs "discriminator" Demo.usgan_self
           (USGAN.OTuple [USGAN.OTensor [1; 2; 3]%Z; USGAN.OTensor [7]%Z])
           1%nat (USGAN.OTensor [1; 2; 3]%Z)).
  - left. reflexivity.
  - reflexivity.
  - reflexivity.
Defined.

Lemma usgan_forward_rejects_training_object_witness :
  exists msg self',
    USGAN.forward (bb := Demo.usgan_backbone) Demo.usgan_inputs "critic" false
      Demo.usgan_self = (Raise (AssertionError msg), self')
    /\ USGAN.calls self' = USGAN.calls Demo.usgan_self
    /\ USGAN.backbone self' = USGAN.backbone Demo.usgan_self.
Proof.
  apply (usgan_forward_rejects_training_object (bb := Demo.usgan_backbone)).
  - discriminate.
  - discriminate.
Defined.

Lemma usgan_forward_imputed_data_witness :
  exists results self',
    USGAN.forward (bb := Demo.usgan_backbone) Demo.usgan_inputs "generator"
      false Demo.usgan_self = (Ok results, self')
    /\ results !! "imputed_data" = Some (USGAN.OTensor [1; 2; 3]%Z)
    /\ USGAN.backbone self' = 1%nat
    /\ USGAN.calls self'
       = USGAN.calls Demo.usgan_self ++ [(Demo.usgan_inputs, "generator", false)].
Proof.
  apply (usgan_forward_imputed_data (bb := Demo.usgan_backbone)
           Demo.usgan_inputs "generator" false Demo.usgan_self
           (USGAN.OTensor [1; 2; 3]%Z) 1%nat).
  - unfold USGAN.training_objects. constructor.
  - reflexivity.
  - reflexivity.
Defined.

(** ** Properties of [SAITS] *)

Section SAITS_properties.

Import SAITS.

Context {fw : Framework} {bm : BaseMethods}.

Implicit Types (self : SAITS) (w : World).

(** Unfolds the plumbing of the monad and of the calls. *)
Ltac run :=
  unfold bind, call_pure, call, sys, attr, set_model, method, logger_warning,
    lift, ret, raise in *;
  simpl in *.

(** Equations between lists built by appending. *)
Ltac lists := rewrite <- ?app_assoc, ?app_nil_r; reflexivity.



(** Case analysis on the innermost scrutinee of a run. *)
Ltac inv_step H :=
  match type of H with
  | context [match ?t with _ => _ end] =>
      lazymatch t with
      | context [match _ with _ => _ end] => fail
      | _ => destruct t eqn:?; simpl in H; try discriminate H
      end
  end.

(** Case analysis on the next collaborator call of a run. *)
Ltac step H :=
  match type of H with
  | context [match ?f ?e with _ => _ end] =>
      let E := fresh "Hcall" in
      destruct (f e) as [[?|?] ?] eqn:E; simpl in H; try discriminate H
  end.

(** *** The constructor *)

(** What a successful run of the constructor has done, in order. *)
Lemma init_Ok_inv
    n_steps n_features n_layers d_model d_ffn n_heads d_k d_v dropout
    attn_dropout diagonal_attention_mask ORT_weight MIT_weight batch_size
    epochs patience customized_loss_func optimizer num_workers device
    saving_path model_saving_strategy w self w' :
  __init__ n_steps n_features n_layers d_model d_ffn n_heads d_k d_v dropout
    attn_dropout diagonal_attention_mask ORT_weight MIT_weight batch_size
    epochs patience customized_loss_func optimizer num_workers device
    saving_path model_saving_strategy w = (Ok self, w') ->
  exists b e1 net e2 e3 net' e4 opt opt',
    BaseNNImputer_init batch_size epochs patience num_workers device
      saving_path model_saving_strategy (env w) = (Ok b, e1)
    /\ _SAITS n_layers n_steps n_features (n_heads * d_k) d_ffn n_heads d_k
         d_v dropout attn_dropout diagonal_attention_mask ORT_weight
         MIT_weight e1 = (Ok net, e2)
    /\ _print_model_size b net e2 = (Ok tt, e3)
    /\ _send_model_to_given_device b net e3 = (Ok net', e4)
    /\ optimizer = Some opt
    /\ init_optimizer opt net' e4 = (Ok opt', env w')
    /\ self = {| base := b; n_steps := n_steps; n_features := n_features;
                 n_layers := n_layers; d_model := n_heads * d_k;
                 d_ffn := d_ffn; n_heads := n_heads; d_k := d_k; d_v := d_v;
                 dropout := dropout; attn_dropout := attn_dropout;
                 diagonal_attention_mask := diagonal_attention_mask;
                 ORT_weight := ORT_weight; MIT_weight := MIT_weight;
                 model := net'; customized_loss_func := customized_loss_func;
                 optimizer := Some opt' |}
    /\ warnings w'
       = warnings w
         ++ (if bool_decide (d_model ≠ n_heads * d_k)%Z
             then [d_model_mismatch_msg d_model n_heads d_k;
                   d_model_reset_msg (n_heads * d_k) n_heads d_k]
             else [])
    /\ trace w'
       = trace w
         ++ [EBaseInit batch_size epochs patience num_workers device
               saving_path model_saving_strategy;
             EBuildNet n_layers n_steps n_features (n_heads * d_k) d_ffn
               n_heads d_k d_v dropout attn_dropout diagonal_attention_mask
               ORT_weight MIT_weight;
             EPrintModelSize; ESendModelToDevice; EInitOptimizer].
Proof.
  intros Hrun. unfold __init__ in Hrun. run.
  step Hrun.
  destruct (bool_decide_reflect (d_model ≠ n_heads * d_k)%Z) as [Hne|Heq];
    simpl in Hrun.
  - step Hrun. step Hrun. step Hrun.
    destruct optimizer as [opt|]; [|done]. step Hrun.
    injection Hrun as <- <-. simpl.
    match goal with u : unit |- _ => destruct u end.
    repeat eexists; eauto; lists.
  - assert (d_model = n_heads * d_k)%Z as -> by lia.
    step Hrun. step Hrun. step Hrun.
    destruct optimizer as [opt|]; [|done]. step Hrun.
    injection Hrun as <- <-. simpl.
    match goal with u : unit |- _ => destruct u end.
    repeat eexists; eauto; lists.
Qed.



(** C9: the constructor stores every hyperparameter other than [d_model]
    as it was passed; [d_model] is stored as [n_heads * d_k]. *)
Theorem saits_init_stores_hyperparameters
    n_steps n_features n_layers d_model d_ffn n_heads d_k d_v dropout
    attn_dropout diagonal_attention_mask ORT_weight MIT_weight batch_size
    epochs patience customized_loss_func optimizer num_workers device
    saving_path model_saving_strategy w self w' :
  __init__ n_steps n_features n_layers d_model d_ffn n_heads d_k d_v dropout
    attn_dropout diagonal_attention_mask ORT_weight MIT_weight batch_size
    epochs patience customized_loss_func optimizer num_workers device
    saving_path model_saving_strategy w = (Ok self, w') ->
  SAITS.n_steps self = n_steps
  /\ SAITS.n_features self = n_features
  /\ SAITS.n_layers self = n_layers
  /\ SAITS.d_ffn self = d_ffn
  /\ SAITS.n_heads self = n_heads
  /\ SAITS.d_k self = d_k
  /\ SAITS.d_v self = d_v
  /\ SAITS.dropout self = dropout
  /\ SAITS.attn_dropout self = attn_dropout
  /\ SAITS.diagonal_attention_mask self = diagonal_attention_mask
  /\ SAITS.ORT_weight self = ORT_weight
  /\ SAITS.MIT_weight self = MIT_weight
  /\ SAITS.d_model self = (n_heads * d_k)%Z
  /\ (SAITS.d_model self = d_model <-> d_model = (n_heads * d_k)%Z).
Proof.
  intros Hrun.
  apply init_Ok_inv in Hrun
    as (b & e1 & net & e2 & e3 & net' & e4 & opt & opt' & _ & _ & _ & _ & _
        & _ & -> & _ & _).
  simpl. repeat split; done.
Qed.

(** *** [fit] *)

(** C8: when [fit] succeeds, training has ended with some object
    [trained]; the parameters have then been loaded from the
    [best_model_dict] of that object, the network has been put in
    evaluation mode, and only then has the saving step been called, on the
    object with that network and with [confirm_saving=True].  These are
    the last four calls of [fit], in this order. *)
Theorem saits_fit_freezes_then_saves train_set val_set file_type self w self' w' :
  fit train_set val_set file_type (self, w) = (Ok tt, (self', w')) ->
  exists training_loader val_loader e0 trained e1 net before,
    _train_model self training_loader val_loader e0 = (Ok tt, (trained, e1))
    /\ Net_load_state_dict (model trained) (best_model_dict (base trained))
       = Ok net
    /\ _auto_save_model_if_necessary (with_model (Net_eval net) trained) true
         e1 = (Ok tt, (self', env w'))
    /\ trace w'
       = trace w ++ before
         ++ [ETrainModel training_loader val_loader;
             ELoadStateDict (best_model_dict (base trained)); EEval;
             EAutoSave true].
Proof.
  intros Hrun. unfold fit in Hrun. run.
  destruct val_set as [v|]; repeat inv_step Hrun; simplify_eq/=.
  all: repeat match goal with u : unit |- _ => destruct u end.
  all: do 6 eexists.
  - match goal with
    | Hds : DatasetForSAITS train_set _ _ _ _ = (Ok ?ds, _),
      Hvs : DatasetForSAITS v _ _ _ _ = (Ok ?vs, _) |- _ =>
        exists [EDatasetForSAITS train_set false false file_type;
                EDataLoader ds (batch_size (base self)) true
                  (num_workers (base self));
                ECheckXOri v; EDatasetForSAITS v true false file_type;
                EDataLoader vs (batch_size (base self)) false
                  (num_workers (base self))]
    end.
    repeat split; eauto; lists.
  - match goal with
    | Hds : DatasetForSAITS train_set _ _ _ _ = (Ok ?ds, _) |- _ =>
        exists [EDatasetForSAITS train_set false false file_type;
                EDataLoader ds (batch_size (base self)) true
                  (num_workers (base self))]
    end.
    repeat split; eauto; lists.
Qed.




(** *** [predict] and [impute] *)

Lemma ignores_ret {A} (a : A) : ignores_warnings (ret a).
Proof. by intros self w ws. Qed.

Lemma ignores_lift {A} (r : Result A) : ignores_warnings (lift r).
Proof. by intros self w ws. Qed.

Lemma ignores_attr {A} (f : SAITS -> A) : ignores_warnings (attr f).
Proof. by intros self w ws. Qed.

Lemma ignores_set_model (net : Net) : ignores_warnings (set_model net).
Proof. by intros self w ws. Qed.

Lemma ignores_call {A} ev (f : Env -> Result A * Env) :
  ignores_warnings (sys (call ev f)).
Proof. intros self w ws. run. by destruct (f (env w)). Qed.

Lemma ignores_bind {A B} (m : M (SAITS * World) A)
    (k : A -> M (SAITS * World) B) :
  ignores_warnings m -> (forall a, ignores_warnings (k a)) ->
  ignores_warnings (bind m k).
Proof.
  intros Hm Hk self w ws. unfold bind. rewrite Hm.
  destruct (m (self, w)) as [[a|x] [self' w']]; [|done]. apply Hk.
Qed.

(** Discharges [ignores_warnings] for code built from the collaborators'
    calls. *)
Ltac ignores :=
  repeat first
    [ assumption
    | apply ignores_ret
    | apply ignores_lift
    | apply ignores_attr
    | apply ignores_set_model
    | apply ignores_call
    | apply ignores_bind; [|intros]
    | match goal with
      | |- ignores_warnings (match ?x with _ => _ end) => destruct x
      | |- ignores_warnings (if ?b then _ else _) => destruct b
      end ].

Lemma ignores_predict_loop batches diagonal_attention_mask return_latent_vars
    acc :
  ignores_warnings
    (predict_loop batches diagonal_attention_mask return_latent_vars acc).
Proof.
  revert acc. induction batches as [|data batches IH]; intros acc; simpl.
  - ignores.
  - destruct acc as [[[ic fc] sc] cc].
    unfold _assemble_input_for_testing, send_data. ignores.
    all: apply IH.
Qed.

Lemma ignores_predict test_set file_type diagonal_attention_mask
    return_latent_vars :
  ignores_warnings
    (predict test_set file_type diagonal_attention_mask return_latent_vars).
Proof.
  unfold predict, concatenate, call_pure.
  ignores. apply ignores_predict_loop.
Qed.

(** [predict] gives no warning. *)
Lemma predict_keeps_warnings test_set file_type diagonal_attention_mask
    return_latent_vars self w r self' w' :
  predict test_set file_type diagonal_attention_mask return_latent_vars
    (self, w) = (r, (self', w')) ->
  warnings w' = warnings w.
Proof.
  intros Hrun.
  pose proof (ignores_predict test_set file_type diagonal_attention_mask
                return_latent_vars self w (warnings w)) as Hsame.
  replace (set_warnings (warnings w) w) with w in Hsame by by destruct w.
  rewrite Hrun in Hsame. by injection Hsame as ->.
Qed.

(** What a successful run of [predict] has done: the network is put in
    evaluation mode, the test set is wrapped and iterated, the loop fills
    the collectors, and the result is built from what they hold. *)
Lemma predict_Ok_inv test_set file_type diagonal_attention_mask
    return_latent_vars self w results self' w' :
  predict test_set file_type diagonal_attention_mask return_latent_vars
    (self, w) = (Ok results, (self', w')) ->
  exists ds e1 loader e2 batches e3 w3 ic fc sc cc s4 joined,
    BaseDataset test_set false false file_type (env w) = (Ok ds, e1)
    /\ DataLoader ds (batch_size (base self)) false (num_workers (base self))
         e1 = (Ok loader, e2)
    /\ Loader_batches loader e2 = (Ok batches, e3)
    /\ env w3 = e3
    /\ predict_loop batches diagonal_attention_mask return_latent_vars
         ([], [], [], []) (with_model (Net_eval (model self)) self, w3)
       = (Ok (ic, fc, sc, cc), s4)
    /\ torch_cat ic = Ok joined
    /\ if return_latent_vars then
         exists first second combining,
           np_concatenate fc = Ok first
           /\ np_concatenate sc = Ok second
           /\ np_concatenate cc = Ok combining
           /\ results
              = <["latent_vars" :=
                    PDict (<["combining_weights" := combining]>
                             (<["second_DMSA_attn_weights" := second]>
                                (<["first_DMSA_attn_weights" := first]> ∅)))]>
                  (<["imputation" := PArray (to_numpy joined)]> ∅)
       else results = <["imputation" := PArray (to_numpy joined)]> ∅.
Proof.
  intros Hrun. unfold predict, concatenate in Hrun. run.
  do 6 inv_step Hrun.
  destruct (predict_loop _ _ _ _ _) as [[[[[ic fc] sc] cc]|x] s4] eqn:Hloop;
    simpl in Hrun; [|done].
  inv_step Hrun.
  destruct return_latent_vars; repeat inv_step Hrun; simplify_eq/=.
  all: repeat eexists; eauto.
  all: done.
Qed.

(** A dict returned by [predict] holds an array under "imputation". *)
Lemma saits_predict_keys_aux test_set file_type diagonal_attention_mask
    return_latent_vars self w results self' w' :
  predict test_set file_type diagonal_attention_mask return_latent_vars
    (self, w) = (Ok results, (self', w')) ->
  exists imputation, results !! "imputation" = Some (PArray imputation).
Proof.
  intros Hrun.
  apply predict_Ok_inv in Hrun
    as (ds & e1 & loader & e2 & batches & e3 & w3 & ic & fc & sc & cc & s4
        & joined & _ & _ & _ & _ & _ & _ & Hresults).
  destruct return_latent_vars.
  - destruct Hresults as (first & second & combining & _ & _ & _ & ->).
    eexists. by rewrite lookup_insert_ne, lookup_insert_eq.
  - subst results. eexists. by rewrite lookup_insert_eq.
Qed.

(** The loop of [predict] goes through all the batches when the
    collaborators do their part, and collects one item per batch. *)
Lemma predict_loop_succeeds diagonal_attention_mask return_latent_vars
    batches :
  serves_predict diagonal_attention_mask ->
  Forall (fun data => length data = 3) batches ->
  forall ic fc sc cc s,
  exists ic' fc' sc' cc' s',
    predict_loop batches diagonal_attention_mask return_latent_vars
      (ic, fc, sc, cc) s = (Ok (ic', fc', sc', cc'), s')
    /\ length ic' = length ic + length batches
    /\ (return_latent_vars = true ->
        length fc' = length fc + length batches
        /\ length sc' = length sc + length batches
        /\ length cc' = length cc + length batches).
Proof.
  intros Hserves Hbatches.
  induction Hbatches as [|data batches Hdata _ IH]; intros ic fc sc cc s.
  - do 5 eexists. split; [reflexivity|]. simpl. lia.
  - destruct s as [self w]. simpl.
    unfold _assemble_input_for_testing, send_data. run.
    destruct (serves_send _ Hserves (base self) data (env w))
      as (sent & e' & -> & Hlen). simpl.
    destruct sent as [|indices [|X [|missing_mask [|]]]];
      simpl in Hlen; try lia. simpl.
    edestruct (serves_forward _ Hserves) as
      (results & e'' & -> & [imputed Himp] & [first Hfirst]
       & [second Hsecond] & [combining Hcomb]).
    simpl. unfold getitem. rewrite Himp. simpl.
    destruct return_latent_vars; simpl.
    + rewrite Hfirst. simpl. rewrite Hsecond. simpl. rewrite Hcomb. simpl.
      edestruct IH as (ic' & fc' & sc' & cc' & s' & -> & Hic & Hlat).
      do 5 eexists. split; [reflexivity|].
      rewrite !length_app in *. simpl in *.
      split; [lia|]. intros _. destruct Hlat as (? & ? & ?); [done|]. lia.
    + edestruct IH as (ic' & fc' & sc' & cc' & s' & -> & Hic & Hlat).
      do 5 eexists. split; [reflexivity|].
      rewrite !length_app in *. simpl in *. split; [lia|done].
Qed.

(** [predict] returns a dict when the test set can be wrapped and
    iterated, has at least one batch, each of three items, and the
    collaborators do their part. *)
Lemma predict_succeeds test_set file_type diagonal_attention_mask
    return_latent_vars self w ds e1 loader e2 batches e3 :
  serves_predict diagonal_attention_mask ->
  BaseDataset test_set false false file_type (env w) = (Ok ds, e1) ->
  DataLoader ds (batch_size (base self)) false (num_workers (base self)) e1
  = (Ok loader, e2) ->
  Loader_batches loader e2 = (Ok batches, e3) ->
  batches <> [] ->
  Forall (fun data => length data = 3) batches ->
  exists results st,
    predict test_set file_type diagonal_attention_mask return_latent_vars
      (self, w) = (Ok results, st).
Proof.
  intros Hserves Hds Hloader Hiter Hsome Hbatches.
  unfold predict, concatenate. run.
  rewrite Hds. simpl. rewrite Hloader. simpl. rewrite Hiter. simpl.
  edestruct (predict_loop_succeeds diagonal_attention_mask return_latent_vars
               batches Hserves Hbatches [] [] [] [])
    as (ic & fc & sc & cc & [self' w'] & -> & Hic & Hlat).
  simpl in *.
  assert (0 < length batches) as Hpos by (destruct batches; [done|simpl; lia]).
  destruct (serves_cat _ Hserves ic) as [joined ->].
  { intros ->. simpl in Hic. lia. }
  simpl. destruct return_latent_vars; simpl; [|by eauto].
  destruct Hlat as (Hfc & Hsc & Hcc); [done|].
  destruct (serves_concatenate _ Hserves fc) as [first ->].
  { intros ->. simpl in Hfc. lia. }
  simpl.
  destruct (serves_concatenate _ Hserves sc) as [second ->].
  { intros ->. simpl in Hsc. lia. }
  simpl.
  destruct (serves_concatenate _ Hserves cc) as [combining ->].
  { intros ->. simpl in Hcc. lia. }
  simpl. by eauto.
Qed.

(** C7: a dict returned by [predict] always holds the key "imputation",
    with an array; it holds the key "latent_vars" exactly when
    [return_latent_vars] is true, and then with a dict of three arrays
    under "first_DMSA_attn_weights", "second_DMSA_attn_weights" and
    "combining_weights".  And [predict] does return a dict when the test
    set can be wrapped and iterated, has at least one batch, each of three
    items, and the collaborators do their part. *)
Theorem saits_predict_result_keys test_set file_type diagonal_attention_mask
    return_latent_vars self w :
  (forall results st,
     predict test_set file_type diagonal_attention_mask return_latent_vars
       (self, w) = (Ok results, st) ->
     (exists imputation, results !! "imputation" = Some (PArray imputation))
     /\ ("latent_vars" ∈ dom results <-> return_latent_vars = true)
     /\ (return_latent_vars = true ->
         exists latent_vars,
           results !! "latent_vars" = Some (PDict latent_vars)
           /\ dom latent_vars
              = {[ "first_DMSA_attn_weights"; "second_DMSA_attn_weights";
                   "combining_weights" ]}))
  /\ (serves_predict diagonal_attention_mask ->
      forall ds e1 loader e2 batches e3,
        BaseDataset test_set false false file_type (env w) = (Ok ds, e1) ->
        DataLoader ds (batch_size (base self)) false (num_workers (base self))
          e1 = (Ok loader, e2) ->
        Loader_batches loader e2 = (Ok batches, e3) ->
        batches <> [] ->
        Forall (fun data => length data = 3) batches ->
        exists results st,
          predict test_set file_type diagonal_attention_mask
            return_latent_vars (self, w) = (Ok results, st)).
Proof.
  split; [|intros; by eapply predict_succeeds].
  intros results [self' w'] Hrun.
  apply predict_Ok_inv in Hrun
    as (ds & e1 & loader & e2 & batches & e3 & w3 & ic & fc & sc & cc & s4
        & joined & _ & _ & _ & _ & _ & _ & Hresults).
  destruct return_latent_vars.
  - destruct Hresults as (first & second & combining & _ & _ & _ & ->).
    split; [|split].
    + eexists. by rewrite lookup_insert_ne, lookup_insert_eq.
    + split; [done|]. intros _. apply elem_of_dom.
      rewrite lookup_insert_eq. by eexists.
    + intros _. eexists. split; [by rewrite lookup_insert_eq|].
      rewrite !dom_insert_L, dom_empty_L. set_solver.
  - subst results. split; [|split].
    + eexists. by rewrite lookup_insert_eq.
    + split; [|done]. intros Hin%elem_of_dom.
      rewrite lookup_insert_ne, lookup_empty in Hin by done.
      by destruct Hin.
    + done.
Qed.

(** C6: [impute] runs [predict] with the two defaults of its signature
    and returns what the dict of [predict] holds under "imputation", a key
    that is always there; the object and the world are left as [predict]
    leaves them, but for one more warning of the logger. *)
Theorem saits_impute_is_predict X file_type self w :
  impute X file_type (self, w)
  = (let '(r, (self', w')) := predict X file_type true false (self, w) in
     (match r with
      | Ok results_dict => getitem results_dict "imputation"
      | Raise e => Raise e
      end,
      (self', {| env := env w'; warnings := warnings w' ++ [impute_msg];
                 trace := trace w' |})))
  /\ (forall results_dict st,
        predict X file_type true false (self, w) = (Ok results_dict, st) ->
        is_Ok (getitem results_dict "imputation")).
Proof.
  split.
  - unfold impute, predict_diagonal_attention_mask, predict_return_latent_vars.
    unfold bind at 1. unfold sys at 1. unfold logger_warning. simpl.
    unfold bind, lift.
    pose proof (ignores_predict X file_type true false self w
                  (warnings w ++ [impute_msg])) as Hsame.
    unfold set_warnings in Hsame. simpl in Hsame. rewrite Hsame.
    destruct (predict X file_type true false (self, w))
      as [r [self' w']] eqn:Hrun.
    apply predict_keeps_warnings in Hrun as ->. by destruct r.
  - intros results_dict [self' w'] Hrun.
    apply saits_predict_keys_aux in Hrun as [imputation Hlook].
    unfold getitem. rewrite Hlook. by eexists.
Qed.

End SAITS_properties.

(** *** [SAITS] on the concrete framework *)

Example saits_init_example : Demo.saits_built.1 = Ok Demo.saits_self.
Proof. reflexivity. Qed.

Example saits_fit_example :
  Demo.saits_fitted.1 = Ok tt
  /\ SAITS.model Demo.saits_fitted.2.1 = (5%Z, false).
Proof. split; reflexivity. Qed.

Example saits_predict_example :
  Demo.saits_predicted.1
  = Ok (<["latent_vars" :=
            SAITS.PDict (<["combining_weights" := [3]%Z]>
                           (<["second_DMSA_attn_weights" := [2]%Z]>
                              (<["first_DMSA_attn_weights" := [1]%Z]> ∅)))]>
          (<["imputation" := SAITS.PArray [1; 0; 3]%Z]> ∅)).
Proof. reflexivity. Qed.

Example saits_impute_example :
  (SAITS.impute (fw := Demo.saits_framework) Demo.data_X "h5py"
     (Demo.saits_self, Demo.world0)).1
  = Ok (SAITS.PArray [1; 0; 3]%Z).
Proof. reflexivity. Qed.


Lemma demo_serves_predict diagonal_attention_mask :
  SAITS.serves_predict (fw := Demo.saits_framework) diagonal_attention_mask.
Proof.
  split; simpl.
  - intros b data e. by exists data, e.
  - intros net inputs e. do 2 eexists. split; [reflexivity|].
    repeat split; by eexists.
  - intros [|t tensors] Hsome; [done|]. by eexists.
  - intros [|a arrays] Hsome; [done|]. by eexists.
Qed.


Lemma saits_init_stores_hyperparameters_witness :
  SAITS.n_steps Demo.saits_self = 4%Z
  /\ SAITS.n_features Demo.saits_self = 3%Z
  /\ SAITS.n_layers Demo.saits_self = 2%Z
  /\ SAITS.d_ffn Demo.saits_self = 16%Z
  /\ SAITS.n_heads Demo.saits_self = 2%Z
  /\ SAITS.d_k Demo.saits_self = 4%Z
  /\ SAITS.d_v Demo.saits_self = 4%Z
  /\ SAITS.dropout Demo.saits_self = SAITS.NInt 0
  /\ SAITS.attn_dropout Demo.saits_self = SAITS.NInt 0
  /\ SAITS.diagonal_attention_mask Demo.saits_self = true
  /\ SAITS.ORT_weight Demo.saits_self = 1%Z
  /\ SAITS.MIT_weight Demo.saits_self = 1%Z
  /\ SAITS.d_model Demo.saits_self = (2 * 4)%Z
  /\ (SAITS.d_model Demo.saits_self = 10%Z <-> 10%Z = (2 * 4)%Z).
Proof.
  apply (saits_init_stores_hyperparameters (fw := Demo.saits_framework) 4 3 2
           10 16 2 4 4 (SAITS.NInt 0) (SAITS.NInt 0) true 1 1 32 100 None tt
           (Some tt) 0 None None (Some "best") Demo.world0 Demo.saits_self
           Demo.saits_built.2).
  reflexivity.
Defined.


Lemma saits_fit_freezes_then_saves_witness :
  exists training_loader val_loader e0 trained e1 net before,
    SAITS._train_model (BaseMethods := Demo.saits_methods) Demo.saits_self
      training_loader val_loader e0 = (Ok tt, (trained, e1))
    /\ SAITS.Net_load_state_dict (Framework := Demo.saits_framework)
         (SAITS.model trained) (SAITS.best_model_dict (SAITS.base trained))
       = Ok net
    /\ SAITS._auto_save_model_if_necessary (BaseMethods := Demo.saits_methods)
         (SAITS.with_model (SAITS.Net_eval net) trained) true e1
       = (Ok tt, (Demo.saits_fitted.2.1, SAITS.env Demo.saits_fitted.2.2))
    /\ SAITS.trace Demo.saits_fitted.2.2
       = SAITS.trace Demo.world0 ++ before
         ++ [SAITS.ETrainModel training_loader val_loader;
             SAITS.ELoadStateDict (SAITS.best_model_dict (SAITS.base trained));
             SAITS.EEval; SAITS.EAutoSave true].
Proof.
  apply (saits_fit_freezes_then_saves (fw := Demo.saits_framework)
           (bm := Demo.saits_methods) Demo.data_X
           (Some Demo.data_X_ori) "h5py" Demo.saits_self Demo.world0
           Demo.saits_fitted.2.1 Demo.saits_fitted.2.2).
  reflexivity.
Defined.

Lemma saits_predict_result_keys_witness :
  exists results st,
    SAITS.predict (fw := Demo.saits_framework) Demo.data_X "h5py" true true
      (Demo.saits_self, Demo.world0) = (Ok results, st)
    /\ (exists imputation,
          results !! "imputation" = Some (SAITS.PArray imputation))
    /\ "latent_vars" ∈ dom results.
Proof.
  destruct (saits_predict_result_keys (fw := Demo.saits_framework) Demo.data_X
              "h5py" true true Demo.saits_self Demo.world0)
    as [Hkeys Hruns].
  destruct (Hruns (demo_serves_predict true) [1; 0; 3]%Z tt
              [[[0%Z]; [1; 0; 3]%Z; [1; 1; 1]%Z]] tt
              [[[0%Z]; [1; 0; 3]%Z; [1; 1; 1]%Z]] tt eq_refl eq_refl eq_refl)
    as (results & st & Hrun).
  - discriminate.
  - repeat constructor.
  - exists results, st. split; [exact Hrun|].
    destruct (Hkeys results st Hrun) as (Himp & Hlat & _).
    split; [exact Himp|]. apply Hlat. reflexivity.
Defined.

(** ** Further properties of [_USGAN.forward] *)

Section USGAN_edges.

Import USGAN.

Context {bb : Backbone}.

Implicit Types (inputs : gmap string (Input Tensor)) (self : _USGAN).
Implicit Types (training_object : string) (training : bool).

(** X1: [forward] handles no exception: when the backbone raises, for a
    valid [training_object], [forward] raises the same exception, in
    training and outside it, and leaves the backbone as the failed call
    left it. *)
Theorem usgan_forward_backbone_failure
    inputs training_object training self e b :
  training_object ∈ training_objects ->
  BackboneUSGAN_forward inputs training_object training (backbone self)
  = (Raise e, b) ->
  forward inputs training_object training self
  = (Raise e, after_call self inputs training_object training b).
Proof.
  intros Hto Hcall. destruct training.
  - by rewrite forward_training, Hcall.
  - by rewrite forward_not_training, Hcall.
Qed.

(** X2: in training, a backbone result that is a tuple of another length
    than two makes [forward] raise the [ValueError] of the unpacking, after
    the backbone has been called; a result that cannot be iterated or
    unpacked raises as the unpacking does. *)
Theorem usgan_forward_unpack_failure inputs training_object self out b :
  training_object ∈ training_objects ->
  BackboneUSGAN_forward inputs training_object true (backbone self)
  = (Ok out, b) ->
  (forall items, out = OTuple items -> length items <> 2 ->
     forward inputs training_object true self
     = (Raise (ValueError (unpack_msg 2 (length items))),
        after_call self inputs training_object true b))
  /\ (forall e, unpack2 out = Raise e ->
        forward inputs training_object true self
        = (Raise e, after_call self inputs training_object true b)).
Proof.
  intros Hto Hcall.
  assert (forall e, unpack2 out = Raise e ->
            forward inputs training_object true self
            = (Raise e, after_call self inputs training_object true b))
    as Hraise.
  { intros e He. by rewrite forward_training, Hcall, He. }
  split; [|done].
  intros items -> Hlen. apply Hraise. unfold unpack2. simpl.
  destruct items as [|a [|l [|c items]]]; simpl in *; done.
Qed.

(** X3: a dict that [forward] returns holds the keys "imputed_data" and
    "loss" in training, the key "imputed_data" alone otherwise, and no
    other key; and [forward] returns a dict only for the training objects
    "generator" and "discriminator". *)
Theorem usgan_forward_exact_keys inputs training_object training self
    results self' :
  forward inputs training_object training self = (Ok results, self') ->
  (training_object = "generator" \/ training_object = "discriminator")
  /\ dom results
     = (if training then {[ "imputed_data"; "loss" ]}
        else {[ "imputed_data" ]}).
Proof.
  intros Hrun.
  destruct (decide (training_object ∈ training_objects)) as [Hto|Hto].
  2: { by rewrite forward_invalid in Hrun. }
  split.
  { apply elem_of_cons in Hto as [->|Hto]; [by left|].
    apply elem_of_cons in Hto as [->|Hto]; [by right|].
    by apply elem_of_nil in Hto. }
  destruct training.
  - rewrite forward_training in Hrun by done.
    destruct (BackboneUSGAN_forward _ _ _ _) as [[out|e] b]; [|done].
    destruct (unpack2 out) as [[imputed_data loss]|e]; [|done].
    injection Hrun as <- _. rewrite !dom_insert_L, dom_empty_L.
    by rewrite (right_id_L ∅ (∪)).
  - rewrite forward_not_training in Hrun by done.
    destruct (BackboneUSGAN_forward _ _ _ _) as [[out|e] b]; [|done].
    injection Hrun as <- _. rewrite dom_insert_L, dom_empty_L.
    by rewrite (right_id_L ∅ (∪)).
Qed.

(** X4: whatever the outcome, one run of [forward] calls the backbone
    once, with the three arguments it was given, when [training_object]
    is valid, and not at all otherwise. *)
Theorem usgan_forward_calls_backbone_once inputs training_object training self :
  calls (forward inputs training_object training self).2
  = calls self
    ++ (if bool_decide (training_object ∈ training_objects)
        then [(inputs, training_object, training)] else []).
Proof.
  destruct (bool_decide_reflect (training_object ∈ training_objects))
    as [Hto|Hto].
  - destruct training.
    + rewrite forward_training by done.
      destruct (BackboneUSGAN_forward _ _ _ _) as [[out|e] b]; [|done].
      by destruct (unpack2 out) as [[imputed_data loss]|e].
    + rewrite forward_not_training by done.
      by destruct (BackboneUSGAN_forward _ _ _ _) as [[out|e] b].
  - rewrite forward_invalid by done. simpl. by rewrite app_nil_r.
Qed.

(** X5: the two branches on [training_object] do the same: when the
    backbone answers the two objectives alike, so does [forward]. *)
Theorem usgan_forward_objectives_alike inputs self :
  BackboneUSGAN_forward inputs "generator" true (backbone self)
  = BackboneUSGAN_forward inputs "discriminator" true (backbone self) ->
  (forward inputs "generator" true self).1
  = (forward inputs "discriminator" true self).1
  /\ backbone (forward inputs "generator" true self).2
     = backbone (forward inputs "discriminator" true self).2.
Proof.
  intros Hsame.
  assert ("generator" ∈ training_objects) as Hg by (by constructor).
  assert ("discriminator" ∈ training_objects) as Hd
    by (by do 2 constructor).
  rewrite !forward_training, Hsame by done.
  destruct (BackboneUSGAN_forward inputs "discriminator" true _)
    as [[out|e] b]; [|by split].
  by destruct (unpack2 out) as [[imputed_data loss]|e]; split.
Qed.

End USGAN_edges.

Lemma usgan_forward_backbone_failure_witness :
  USGAN.forward (bb := Cases.failing_backbone) Demo.usgan_inputs "generator"
    false (@USGAN.Build_USGAN Cases.failing_backbone 0%nat [])
  = (Raise (Exn "RuntimeError" "out of memory"),
     USGAN.after_call (@USGAN.Build_USGAN Cases.failing_backbone 0%nat [])
       Demo.usgan_inputs "generator" false 1%nat).
Proof.
  apply (usgan_forward_backbone_failure (bb := Cases.failing_backbone)).
  - unfold USGAN.training_objects. constructor.
  - reflexivity.
Defined.

Lemma usgan_forward_unpack_failure_witness :
  USGAN.forward (bb := Cases.tuple_backbone 3) Demo.usgan_inputs
    "discriminator" true (@USGAN.Build_USGAN (Cases.tuple_backbone 3) 0%nat [])
  = (Raise (ValueError "too many values to unpack (expected 2)"),
     USGAN.after_call (@USGAN.Build_USGAN (Cases.tuple_backbone 3) 0%nat [])
       Demo.usgan_inputs "discriminator" true 1%nat).
Proof.
  destruct (usgan_forward_unpack_failure (bb := Cases.tuple_backbone 3)
              Demo.usgan_inputs "discriminator"
              (@USGAN.Build_USGAN (Cases.tuple_backbone 3) 0%nat [])
              (USGAN.OTuple (replicate 3 (USGAN.OTensor [1%Z]))) 1%nat)
    as [Htuple _].
  - unfold USGAN.training_objects. do 2 constructor.
  - reflexivity.
  - apply (Htuple _ eq_refl). discriminate.
Defined.

Lemma usgan_forward_exact_keys_witness :
  ("generator" = "generator" \/ "generator" = "discriminator")
  /\ dom (<["imputed_data" := USGAN.OTensor [1; 2; 3]%Z]>
            (<["loss" := USGAN.OTensor [9]%Z]> ∅)
          : gmap string (USGAN.Output (list Z)))
     = {[ "imputed_data"; "loss" ]}.
Proof.
  apply (usgan_forward_exact_keys (bb := Demo.usgan_backbone)
           Demo.usgan_inputs "generator" true Demo.usgan_self _
           (USGAN.after_call Demo.usgan_self Demo.usgan_inputs "generator"
              true 1%nat)).
  reflexivity.
Defined.

Lemma usgan_forward_objectives_alike_witness :
  (USGAN.forward (bb := Cases.tuple_backbone 2) Demo.usgan_inputs "generator"
     true (@USGAN.Build_USGAN (Cases.tuple_backbone 2) 0%nat [])).1
  = (USGAN.forward (bb := Cases.tuple_backbone 2) Demo.usgan_inputs
       "discriminator" true
       (@USGAN.Build_USGAN (Cases.tuple_backbone 2) 0%nat [])).1
  /\ USGAN.backbone
       (USGAN.forward (bb := Cases.tuple_backbone 2) Demo.usgan_inputs
          "generator" true
          (@USGAN.Build_USGAN (Cases.tuple_backbone 2) 0%nat [])).2
     = USGAN.backbone
         (USGAN.forward (bb := Cases.tuple_backbone 2) Demo.usgan_inputs
            "discriminator" true
            (@USGAN.Build_USGAN (Cases.tuple_backbone 2) 0%nat [])).2.
Proof.
  apply (usgan_forward_objectives_alike (bb := Cases.tuple_backbone 2)).
  reflexivity.
Defined.

(** ** Further properties of [SAITS] *)

Section SAITS_edges.

Import SAITS Runs.

Context {fw : Framework} {bm : BaseMethods}.

Implicit Types (self : SAITS) (w : World).

(** Unfolds the plumbing of the monad and of the calls. *)
Ltac run :=
  unfold bind, call_pure, call, sys, attr, set_model, method, logger_warning,
    lift, ret, raise in *;
  simpl in *.

(** Equations between lists built by appending. *)
Ltac lists := rewrite <- ?app_assoc, ?app_nil_r; reflexivity.

(** Case analysis on the innermost scrutinee of a run. *)
Ltac inv_step H :=
  match type of H with
  | context [match ?t with _ => _ end] =>
      lazymatch t with
      | context [match _ with _ => _ end] => fail
      | _ => destruct t eqn:?; simpl in H; try discriminate H
      end
  end.

(** The world after one more call that left the environment [e]. *)
Local Abbreviation after_event w e ev :=
  {| env := e; warnings := warnings w; trace := trace w ++ [ev] |}.

(** *** The assembling of the inputs *)

(** X6: a training batch is sent to the device and must then have five
    items: the inputs hold the second to the fifth of them under 'X',
    'missing_mask', 'X_ori' and 'indicating_mask', and nothing else (the
    indices are dropped); with another number of items the unpacking
    raises a [ValueError].  A validation batch is assembled in the same
    way. *)
Theorem saits_assemble_training data self w sent e' :
  _send_data_to_given_device (base self) data (env w) = (Ok sent, e') ->
  (length sent = 5 ->
   exists inputs,
     _assemble_input_for_training data (self, w)
     = (Ok inputs, (self, after_event w e' (ESendData data)))
     /\ dom inputs = {[ "X"; "missing_mask"; "X_ori"; "indicating_mask" ]}
     /\ inputs !! "X" = sent !! 1%nat
     /\ inputs !! "missing_mask" = sent !! 2%nat
     /\ inputs !! "X_ori" = sent !! 3%nat
     /\ inputs !! "indicating_mask" = sent !! 4%nat)
  /\ (length sent <> 5 ->
      _assemble_input_for_training data (self, w)
      = (Raise (ValueError (unpack_msg 5 (length sent))),
         (self, after_event w e' (ESendData data))))
  /\ _assemble_input_for_validating data (self, w)
     = _assemble_input_for_training data (self, w).
Proof.
  intros Hsend. unfold _assemble_input_for_validating.
  unfold _assemble_input_for_training, send_data. run. rewrite Hsend. simpl.
  split; [|split; [|done]].
  - intros Hlen.
    destruct sent as [|indices [|X [|mm [|X_ori [|im [|]]]]]]; try done.
    simpl. eexists. split; [done|].
    split; [rewrite !dom_insert_L, dom_empty_L; set_solver|].
    repeat split; by simplify_map_eq.
  - intros Hlen.
    by destruct sent as [|indices [|X [|mm [|X_ori [|im [|]]]]]].
Qed.

(** X7: a test batch is sent to the device and must then have three
    items: the inputs hold the second and the third of them under 'X' and
    'missing_mask', and nothing else; with another number of items the
    unpacking raises a [ValueError]. *)
Theorem saits_assemble_testing data self w sent e' :
  _send_data_to_given_device (base self) data (env w) = (Ok sent, e') ->
  (length sent = 3 ->
   exists inputs,
     _assemble_input_for_testing data (self, w)
     = (Ok inputs, (self, after_event w e' (ESendData data)))
     /\ dom inputs = {[ "X"; "missing_mask" ]}
     /\ inputs !! "X" = sent !! 1%nat
     /\ inputs !! "missing_mask" = sent !! 2%nat)
  /\ (length sent <> 3 ->
      _assemble_input_for_testing data (self, w)
      = (Raise (ValueError (unpack_msg 3 (length sent))),
         (self, after_event w e' (ESendData data)))).
Proof.
  intros Hsend.
  unfold _assemble_input_for_testing, send_data. run. rewrite Hsend. simpl.
  split.
  - intros Hlen. destruct sent as [|indices [|X [|mm [|]]]]; try done.
    simpl. eexists. split; [done|].
    split; [rewrite !dom_insert_L, dom_empty_L; set_solver|].
    repeat split; by simplify_map_eq.
  - intros Hlen. by destruct sent as [|indices [|X [|mm [|]]]].
Qed.

(** *** The constructor *)

(** X8: without an optimizer ([optimizer=None]) the constructor never
    returns an object: once the base class is set up and the network is
    built and sent to its device, the call of [init_optimizer] on [None]
    raises an [AttributeError]. *)
Theorem saits_init_without_optimizer
    n_steps n_features n_layers d_model d_ffn n_heads d_k d_v dropout
    attn_dropout diagonal_attention_mask ORT_weight MIT_weight batch_size
    epochs patience customized_loss_func num_workers device saving_path
    model_saving_strategy w :
  (exists e,
     (__init__ n_steps n_features n_layers d_model d_ffn n_heads d_k d_v
        dropout attn_dropout diagonal_attention_mask ORT_weight MIT_weight
        batch_size epochs patience customized_loss_func None num_workers
        device saving_path model_saving_strategy w).1 = Raise e)
  /\ (forall b e1 net e2 e3 net' e4,
        BaseNNImputer_init batch_size epochs patience num_workers device
          saving_path model_saving_strategy (env w) = (Ok b, e1) ->
        _SAITS n_layers n_steps n_features (n_heads * d_k) d_ffn n_heads d_k
          d_v dropout attn_dropout diagonal_attention_mask ORT_weight
          MIT_weight e1 = (Ok net, e2) ->
        _print_model_size b net e2 = (Ok tt, e3) ->
        _send_model_to_given_device b net e3 = (Ok net', e4) ->
        exists w',
          __init__ n_steps n_features n_layers d_model d_ffn n_heads d_k d_v
            dropout attn_dropout diagonal_attention_mask ORT_weight
            MIT_weight batch_size epochs patience customized_loss_func None
            num_workers device saving_path model_saving_strategy w
          = (Raise (AttributeError
                      "'NoneType' object has no attribute 'init_optimizer'"),
             w')
          /\ env w' = e4
          /\ new_events w w'
             = [EBaseInit batch_size epochs patience num_workers device
                  saving_path model_saving_strategy;
                EBuildNet n_layers n_steps n_features (n_heads * d_k) d_ffn
                  n_heads d_k d_v dropout attn_dropout
                  diagonal_attention_mask ORT_weight MIT_weight;
                EPrintModelSize; ESendModelToDevice]).
Proof.
  split.
  - unfold __init__. run.
    destruct (BaseNNImputer_init _ _ _ _ _ _ _ _) as [[b|x] e1]; simpl;
      [|by eexists].
    destruct (bool_decide (d_model ≠ n_heads * d_k)%Z); simpl.
    all: destruct (_SAITS _ _ _ _ _ _ _ _ _ _ _ _ _ _) as [[net|x] e2]; simpl;
      [|by eexists].
    all: destruct (_print_model_size _ _ _) as [[[]|x] e3]; simpl;
      [|by eexists].
    all: destruct (_send_model_to_given_device _ _ _) as [[net'|x] e4]; simpl;
      by eexists.
  - intros b e1 net e2 e3 net' e4 Hb Hnet Hprint Hsend.
    unfold __init__, new_events. run. rewrite Hb. simpl.
    destruct (bool_decide_reflect (d_model ≠ n_heads * d_k)%Z) as [Hne|Heq];
      [|assert (d_model = n_heads * d_k)%Z as -> by lia]; simpl.
    all: rewrite Hnet; simpl; rewrite Hprint; simpl; rewrite Hsend; simpl.
    all: eexists; split; [reflexivity|]; split; [reflexivity|]; simpl.
    all: by rewrite <- !app_assoc, drop_app_length.
Qed.

(** X9: the warnings about [d_model] do not wait for the rest of the
    constructor: once the base class is set up, a [d_model] that is not
    [n_heads * d_k] makes the constructor give its two warnings, the
    mismatch first and the reset next, whatever the outcome, also when
    the building of the network or the set-up of the optimizer raises
    afterwards. *)
Theorem saits_init_warnings
    n_steps n_features n_layers d_model d_ffn n_heads d_k d_v dropout
    attn_dropout diagonal_attention_mask ORT_weight MIT_weight batch_size
    epochs patience customized_loss_func optimizer num_workers device
    saving_path model_saving_strategy w b e1 :
  BaseNNImputer_init batch_size epochs patience num_workers device
    saving_path model_saving_strategy (env w) = (Ok b, e1) ->
  d_model <> (n_heads * d_k)%Z ->
  exists before after,
    warnings
      (__init__ n_steps n_features n_layers d_model d_ffn n_heads d_k d_v
         dropout attn_dropout diagonal_attention_mask ORT_weight MIT_weight
         batch_size epochs patience customized_loss_func optimizer num_workers
         device saving_path model_saving_strategy w).2
    = before
      ++ [d_model_mismatch_msg d_model n_heads d_k;
          d_model_reset_msg (n_heads * d_k) n_heads d_k]
      ++ after.
Proof.
  intros Hbase Hne. exists (warnings w), [].
  unfold __init__. run. rewrite Hbase. simpl.
  rewrite bool_decide_eq_true_2 by done. simpl.
  destruct (_SAITS _ _ _ _ _ _ _ _ _ _ _ _ _ _) as [[net|x] e2]; simpl;
    [|lists].
  destruct (_print_model_size _ _ _) as [[[]|x] e3]; simpl; [|lists].
  destruct (_send_model_to_given_device _ _ _) as [[net'|x] e4]; simpl;
    [|lists].
  destruct optimizer as [opt|]; simpl; [|lists].
  destruct (init_optimizer _ _ _) as [[opt'|x] e5]; simpl; lists.
Qed.

(** X10: the object that the constructor returns holds the network as
    the device transfer returned it, and the optimizer as it was
    initialised on that network; the base class is set up first, and the
    five calls are made in this order. *)
Theorem saits_init_wiring
    n_steps n_features n_layers d_model d_ffn n_heads d_k d_v dropout
    attn_dropout diagonal_attention_mask ORT_weight MIT_weight batch_size
    epochs patience customized_loss_func optimizer num_workers device
    saving_path model_saving_strategy w self w' :
  __init__ n_steps n_features n_layers d_model d_ffn n_heads d_k d_v dropout
    attn_dropout diagonal_attention_mask ORT_weight MIT_weight batch_size
    epochs patience customized_loss_func optimizer num_workers device
    saving_path model_saving_strategy w = (Ok self, w') ->
  exists built e3 e4 opt opt',
    _send_model_to_given_device (base self) built e3 = (Ok (model self), e4)
    /\ optimizer = Some opt
    /\ init_optimizer opt (model self) e4 = (Ok opt', env w')
    /\ SAITS.optimizer self = Some opt'
    /\ SAITS.customized_loss_func self = customized_loss_func
    /\ new_events w w'
       = [EBaseInit batch_size epochs patience num_workers device
            saving_path model_saving_strategy;
          EBuildNet n_layers n_steps n_features (n_heads * d_k) d_ffn n_heads
            d_k d_v dropout attn_dropout diagonal_attention_mask ORT_weight
            MIT_weight;
          EPrintModelSize; ESendModelToDevice; EInitOptimizer].
Proof.
  intros Hrun.
  apply init_Ok_inv in Hrun
    as (b & e1 & net & e2 & e3 & net' & e4 & opt & opt' & _ & _ & _ & Hsend
        & -> & Hopt & -> & _ & Htrace).
  exists net, e3, e4, opt, opt'. simpl.
  repeat split; try done.
  unfold new_events. by rewrite Htrace, drop_app_length.
Qed.

(** *** [fit] *)

(** Splits the membership of an event in a list that is written out. *)
Ltac among Hin :=
  repeat (apply elem_of_cons in Hin as [Hin|Hin]; [try discriminate Hin|]);
  try (by apply elem_of_nil in Hin).

(** X11: the calls of a successful [fit], in order: the training set is
    wrapped without 'X_ori' and its loader shuffles; a validation set, if
    there is one, is checked, wrapped with 'X_ori', and its loader does
    not shuffle; both loaders use the batch size and the workers of the
    object; the training gets these loaders; then the best parameters are
    loaded, the network is put in evaluation mode, and the saving step is
    called. *)
Theorem saits_fit_calls_in_order train_set val_set file_type self w self' w' :
  fit train_set val_set file_type (self, w) = (Ok tt, (self', w')) ->
  exists ds e1 tl e2 validation vl trained,
    DatasetForSAITS train_set false false file_type (env w) = (Ok ds, e1)
    /\ DataLoader ds (batch_size (base self)) true (num_workers (base self)) e1
       = (Ok tl, e2)
    /\ match val_set with
       | None => validation = [] /\ vl = None
       | Some v =>
           exists e3 vs e4 vloader e5,
             DatasetForSAITS v true false file_type e3 = (Ok vs, e4)
             /\ DataLoader vs (batch_size (base self)) false
                  (num_workers (base self)) e4 = (Ok vloader, e5)
             /\ validation
                = [ECheckXOri v; EDatasetForSAITS v true false file_type;
                   EDataLoader vs (batch_size (base self)) false
                     (num_workers (base self))]
             /\ vl = Some vloader
       end
    /\ new_events w w'
       = [EDatasetForSAITS train_set false false file_type;
          EDataLoader ds (batch_size (base self)) true
            (num_workers (base self))]
         ++ validation
         ++ [ETrainModel tl vl;
             ELoadStateDict (best_model_dict (base trained)); EEval;
             EAutoSave true].
Proof.
  intros Hrun. unfold fit, new_events in *. run.
  destruct val_set as [v|]; repeat inv_step Hrun; simplify_eq/=.
  all: do 4 eexists.
  - eexists [_; _; _], _, _.
    split; [done|]. split; [done|]. split; [by eauto 10|].
    by rewrite <- !app_assoc, drop_app_length.
  - eexists [], _, _.
    split; [done|]. split; [done|]. split; [done|].
    by rewrite <- !app_assoc, drop_app_length.
Qed.

(** X12: the call of the saving step that [fit] itself makes, its last
    statement, comes only after the freezing: whatever the outcome, if
    [fit] has made this call then it made it with [confirm_saving=True],
    the training had returned and the best parameters had been loaded;
    when the training or the loading raises, [fit] does not make it.
    What the training saves on its own is not in view here. *)
Theorem saits_fit_saves_after_freezing
    train_set val_set file_type self w r self' w' confirm :
  fit train_set val_set file_type (self, w) = (r, (self', w')) ->
  EAutoSave confirm ∈ new_events w w' ->
  confirm = true
  /\ exists tl vl e0 trained e1 net,
       _train_model self tl vl e0 = (Ok tt, (trained, e1))
       /\ Net_load_state_dict (model trained) (best_model_dict (base trained))
          = Ok net.
Proof.
  intros Hrun Hin. unfold fit, new_events in *. run.
  destruct val_set as [v|]; repeat inv_step Hrun; simplify_eq/=.
  all: rewrite <- ?app_assoc, drop_app_length in Hin; simpl in Hin.
  all: among Hin.
  all: injection Hin as ->.
  all: repeat match goal with u : unit |- _ => destruct u end.
  all: split; [done|]; by eauto 10.
Qed.

(** X13: [fit] starts the training only with a validation set that it
    accepts: whatever the outcome, if the training has been called then
    it got no validation loader when there is no validation set, and it
    got one when there is a validation set, whose keys then hold
    'X_ori'. *)
Theorem saits_fit_trains_on_checked_data
    train_set val_set file_type self w r self' w' tl vl :
  fit train_set val_set file_type (self, w) = (r, (self', w')) ->
  ETrainModel tl vl ∈ new_events w w' ->
  match val_set with
  | None => vl = None
  | Some v =>
      is_Some vl
      /\ exists e keys e',
           dataset_keys v e = (Ok keys, e') /\ "X_ori" ∈ keys
  end.
Proof.
  intros Hrun Hin. unfold fit, check_X_ori_in_val_set, new_events in *. run.
  destruct val_set as [v|]; repeat inv_step Hrun; simplify_eq/=.
  all: rewrite <- ?app_assoc, drop_app_length in Hin; simpl in Hin.
  all: among Hin.
  all: injection Hin as -> ->.
  all: try done.
  all: split; [done|].
  all: match goal with
       | Hneg : negb (bool_decide _) = false |- _ =>
           apply negb_false_iff, bool_decide_eq_true in Hneg
       end.
  all: by eauto.
Qed.

(** X20: [fit] looks at the validation set only after the training set
    and its loader: whatever the outcome, if the check for 'X_ori' has
    been called then it was on the validation set that was given, and the
    training set had been wrapped and its loader built. *)
Theorem saits_fit_checks_after_wrapping
    train_set val_set file_type self w r self' w' v :
  fit train_set val_set file_type (self, w) = (r, (self', w')) ->
  ECheckXOri v ∈ new_events w w' ->
  val_set = Some v
  /\ exists ds e1 tl e2,
       DatasetForSAITS train_set false false file_type (env w) = (Ok ds, e1)
       /\ DataLoader ds (batch_size (base self)) true
            (num_workers (base self)) e1 = (Ok tl, e2).
Proof.
  intros Hrun Hin. unfold fit, new_events in *. run.
  destruct val_set as [v'|]; repeat inv_step Hrun; simplify_eq/=.
  all: rewrite <- ?app_assoc, ?drop_app_length in Hin; simpl in Hin.
  all: among Hin.
  all: injection Hin as ->.
  all: split; [done|]; by eauto 10.
Qed.

(** *** [predict] and [impute] *)

(** Case analysis on the innermost scrutinee of the goal. *)
Ltac goal_step :=
  match goal with
  | |- context [match ?t with _ => _ end] =>
      lazymatch t with
      | context [match _ with _ => _ end] => fail
      | _ => destruct t eqn:?; simpl
      end
  end.

(** The loop of [predict] leaves the object as it is. *)
Lemma predict_loop_object batches diagonal_attention_mask return_latent_vars
    acc s :
  (predict_loop batches diagonal_attention_mask return_latent_vars acc s).2.1
  = s.1.
Proof.
  revert acc s. induction batches as [|data batches IH]; intros acc s; [done|].
  destruct acc as [[[ic fc] sc] cc]. destruct s as [self w]. simpl.
  unfold _assemble_input_for_testing, send_data. run.
  repeat goal_step; try done.
  all: by rewrite IH.
Qed.


(** When the loop of [predict] ends, every collector has one more item
    per batch, and the collectors of the latent variables are untouched
    when these are not asked for. *)
Lemma predict_loop_lengths batches diagonal_attention_mask return_latent_vars
    ic fc sc cc s ic' fc' sc' cc' s' :
  predict_loop batches diagonal_attention_mask return_latent_vars
    (ic, fc, sc, cc) s = (Ok (ic', fc', sc', cc'), s') ->
  length ic' = length ic + length batches
  /\ if return_latent_vars then
       length fc' = length fc + length batches
       /\ length sc' = length sc + length batches
       /\ length cc' = length cc + length batches
     else fc' = fc /\ sc' = sc /\ cc' = cc.
Proof.
  revert ic fc sc cc s.
  induction batches as [|data batches IH]; intros ic fc sc cc s Hrun.
  { simpl in Hrun. injection Hrun as <- <- <- <- _. simpl.
    destruct return_latent_vars; repeat split; lia. }
  destruct s as [self w]. simpl in Hrun.
  unfold _assemble_input_for_testing, send_data in Hrun. run.
  do 6 inv_step Hrun.
  destruct return_latent_vars; repeat inv_step Hrun.
  all: apply IH in Hrun as [Hic Hlat]; rewrite ?length_app in *; simpl in *.
  - destruct Hlat as (? & ? & ?). repeat split; lia.
  - split; [lia|done].
Qed.

(** X14: whatever its outcome, [predict] changes one thing of the
    object: the network is put in evaluation mode, also when [predict]
    raises. *)
Theorem saits_predict_object test_set file_type diagonal_attention_mask
    return_latent_vars self w :
  (predict test_set file_type diagonal_attention_mask return_latent_vars
     (self, w)).2.1
  = with_model (Net_eval (model self)) self.
Proof.
  unfold predict, concatenate. run.
  destruct (BaseDataset _ _ _ _ _) as [[ds|x] e1]; simpl; [|done].
  destruct (DataLoader _ _ _ _ _) as [[loader|x] e2]; simpl; [|done].
  destruct (Loader_batches _ _) as [[batches|x] e3]; simpl; [|done].
  match goal with
  | |- context [predict_loop ?bs ?m ?r ?acc ?s] =>
      pose proof (predict_loop_object bs m r acc s) as Hobj;
      destruct (predict_loop bs m r acc s) as [[[[[ic fc] sc] cc]|x] [self' w']]
  end; simpl in *; subst self'; [|done].
  repeat goal_step; done.
Qed.


(** When the loop of [predict] ends, it has made two calls per batch, a
    device transfer and a pass of the network. *)
Lemma predict_loop_passes batches diagonal_attention_mask return_latent_vars
    acc s acc' s' :
  predict_loop batches diagonal_attention_mask return_latent_vars acc s
  = (Ok acc', s') ->
  exists passes,
    trace s'.2 = trace s.2 ++ passes
    /\ length passes = 2 * length batches
    /\ batch_passes diagonal_attention_mask batches passes.
Proof.
  revert acc s.
  induction batches as [|data batches IH]; intros acc s Hrun.
  { simpl in Hrun. injection Hrun as _ <-. exists []. by rewrite app_nil_r. }
  destruct acc as [[[ic fc] sc] cc]. destruct s as [self w]. simpl in Hrun.
  unfold _assemble_input_for_testing, send_data in Hrun. run.
  do 6 inv_step Hrun.
  destruct return_latent_vars; repeat inv_step Hrun.
  all: apply IH in Hrun as (passes & -> & Hlen & Hpasses); simpl.
  all: eexists (_ :: _ :: passes); split; [lists|].
  all: split; [simpl; lia|by simpl].
Qed.

(** X16: a dict that [predict] returns comes from one tensor per batch
    of the test loader: the test set was wrapped, its loader built and
    iterated; for each of its batches, in their order, the batch was sent
    to the device and the network was run once, outside training and with
    the given [diagonal_attention_mask]; [torch.cat] was then called on a
    list of as many tensors as there are batches, and "imputation" holds
    its result as an array; with the latent variables, [np.concatenate]
    was called three times, each time on as many arrays as there are
    batches. *)
Theorem saits_predict_one_item_per_batch test_set file_type
    diagonal_attention_mask return_latent_vars self w results st :
  predict test_set file_type diagonal_attention_mask return_latent_vars
    (self, w) = (Ok results, st) ->
  exists ds e1 loader e2 batches e3 passes ic fc sc cc joined,
    BaseDataset test_set false false file_type (env w) = (Ok ds, e1)
    /\ DataLoader ds (batch_size (base self)) false (num_workers (base self))
         e1 = (Ok loader, e2)
    /\ Loader_batches loader e2 = (Ok batches, e3)
    /\ new_events w st.2
       = [EEval; EBaseDataset test_set false false file_type;
          EDataLoader ds (batch_size (base self)) false
            (num_workers (base self));
          EIterate loader]
         ++ passes ++ [ETorchCat ic]
         ++ (if return_latent_vars
             then [ENpConcatenate fc; ENpConcatenate sc; ENpConcatenate cc]
             else [])
    /\ batch_passes diagonal_attention_mask batches passes
    /\ length passes = 2 * length batches
    /\ length ic = length batches
    /\ torch_cat ic = Ok joined
    /\ results !! "imputation" = Some (PArray (to_numpy joined))
    /\ (return_latent_vars = true ->
        length fc = length batches /\ length sc = length batches
        /\ length cc = length batches
        /\ exists first second combining,
             np_concatenate fc = Ok first /\ np_concatenate sc = Ok second
             /\ np_concatenate cc = Ok combining
             /\ results !! "latent_vars"
                = Some (PDict (<["combining_weights" := combining]>
                                 (<["second_DMSA_attn_weights" := second]>
                                    (<["first_DMSA_attn_weights" := first]>
                                       ∅))))).
Proof.
  intros Hrun. destruct st as [self' w'].
  unfold predict, concatenate, new_events in *. run.
  do 6 inv_step Hrun.
  destruct (predict_loop _ _ _ _ _) as [[[[[ic fc] sc] cc]|x] [self4 w4]]
    eqn:Hloop; simpl in Hrun; [|done].
  pose proof Hloop as Hlen.
  apply predict_loop_lengths in Hlen as [Hic Hlat].
  apply predict_loop_passes in Hloop as (passes & Htrace & Hpasses & Hcalls).
  simpl in *.
  inv_step Hrun.
  destruct return_latent_vars; repeat inv_step Hrun; simplify_eq/=.
  - destruct Hlat as (? & ? & ?).
    do 6 eexists. exists passes, ic, fc, sc, cc. eexists.
    repeat (split; [done|]).
    split. { rewrite Htrace, <- !app_assoc, drop_app_length. lists. }
    repeat (split; [done|]).
    do 3 eexists. repeat (split; [done|]). by simplify_map_eq.
  - destruct Hlat as (-> & -> & ->).
    do 6 eexists. exists passes, ic, [], [], []. eexists.
    repeat (split; [done|]).
    split. { rewrite Htrace, <- !app_assoc, drop_app_length. lists. }
    repeat (split; [done|]). done.
Qed.

(** X17: on a test loader without batches the network is not run:
    [predict] calls [torch.cat] on the empty list, and raises what it
    raises. *)
Theorem saits_predict_without_batches test_set file_type
    diagonal_attention_mask return_latent_vars self w ds e1 loader e2 e3 x :
  BaseDataset test_set false false file_type (env w) = (Ok ds, e1) ->
  DataLoader ds (batch_size (base self)) false (num_workers (base self)) e1
  = (Ok loader, e2) ->
  Loader_batches loader e2 = (Ok [], e3) ->
  torch_cat [] = Raise x ->
  exists w',
    predict test_set file_type diagonal_attention_mask return_latent_vars
      (self, w) = (Raise x, (with_model (Net_eval (model self)) self, w'))
    /\ env w' = e3
    /\ new_events w w'
       = [EEval; EBaseDataset test_set false false file_type;
          EDataLoader ds (batch_size (base self)) false
            (num_workers (base self));
          EIterate loader; ETorchCat []].
Proof.
  intros Hds Hloader Hiter Hcat. unfold predict, new_events. run.
  rewrite Hds. simpl. rewrite Hloader. simpl. rewrite Hiter. simpl.
  rewrite Hcat. simpl.
  eexists. split; [reflexivity|]. split; [done|]. simpl.
  by rewrite <- !app_assoc, drop_app_length.
Qed.

(** X19: what [impute] returns is an array, never the dict of the latent
    variables. *)
Theorem saits_impute_returns_array X file_type self w value st :
  impute X file_type (self, w) = (Ok value, st) ->
  exists imputation, value = PArray imputation.
Proof.
  unfold impute. unfold bind at 1. unfold sys at 1. unfold logger_warning.
  simpl. unfold bind, lift. intros Hrun.
  destruct (predict _ _ _ _ _) as [[results|x] [self' w']] eqn:Hpredict;
    [|done].
  apply saits_predict_keys_aux in Hpredict as [imputation Hlook].
  unfold getitem in Hrun. rewrite Hlook in Hrun.
  injection Hrun as <- _. by eexists.
Qed.

End SAITS_edges.

(** *** The further properties on the concrete frameworks *)

Lemma saits_assemble_training_witness :
  exists inputs : gmap string (list Z),
    SAITS._assemble_input_for_training (fw := Demo.saits_framework)
      [[0]; [1; 0; 3]; [1; 0; 1]; [1; 2; 3]; [0; 1; 0]]%Z
      (Demo.saits_self, Demo.world0)
    = (Ok inputs,
       (Demo.saits_self,
        @SAITS.Build_World Demo.saits_framework tt []
          [SAITS.ESendData
             ([[0]; [1; 0; 3]; [1; 0; 1]; [1; 2; 3]; [0; 1; 0]]%Z
              : list (@SAITS.Tensor Demo.saits_framework))]))
    /\ dom inputs = {[ "X"; "missing_mask"; "X_ori"; "indicating_mask" ]}
    /\ inputs !! "X" = Some [1; 0; 3]%Z
    /\ inputs !! "missing_mask" = Some [1; 0; 1]%Z
    /\ inputs !! "X_ori" = Some [1; 2; 3]%Z
    /\ inputs !! "indicating_mask" = Some [0; 1; 0]%Z.
Proof.
  destruct (saits_assemble_training (fw := Demo.saits_framework)
              [[0]; [1; 0; 3]; [1; 0; 1]; [1; 2; 3]; [0; 1; 0]]%Z
              Demo.saits_self Demo.world0
              [[0]; [1; 0; 3]; [1; 0; 1]; [1; 2; 3]; [0; 1; 0]]%Z tt eq_refl)
    as [Hfive _].
  exact (Hfive eq_refl).
Defined.

Lemma saits_assemble_testing_witness :
  SAITS._assemble_input_for_testing (fw := Demo.saits_framework)
    [[0]; [1; 0; 3]]%Z (Demo.saits_self, Demo.world0)
  = (Raise (ValueError "not enough values to unpack (expected 3, got 2)"),
     (Demo.saits_self,
      @SAITS.Build_World Demo.saits_framework tt []
        [SAITS.ESendData
           ([[0]; [1; 0; 3]]%Z : list (@SAITS.Tensor Demo.saits_framework))])).
Proof.
  destruct (saits_assemble_testing (fw := Demo.saits_framework)
              [[0]; [1; 0; 3]]%Z Demo.saits_self Demo.world0
              [[0]; [1; 0; 3]]%Z tt eq_refl)
    as [_ Hother].
  apply Hother. discriminate.
Defined.

Lemma saits_init_wiring_witness :
  exists built e3 e4 opt opt',
    SAITS._send_model_to_given_device (Framework := Demo.saits_framework)
      (SAITS.base Demo.saits_self) built e3
    = (Ok (SAITS.model Demo.saits_self), e4)
    /\ Some tt = Some opt
    /\ SAITS.init_optimizer (Framework := Demo.saits_framework) opt
         (SAITS.model Demo.saits_self) e4
       = (Ok opt', SAITS.env Demo.saits_built.2)
    /\ SAITS.optimizer Demo.saits_self = Some opt'
    /\ SAITS.customized_loss_func Demo.saits_self = tt
    /\ Runs.new_events Demo.world0 Demo.saits_built.2
       = [SAITS.EBaseInit 32 100 None 0 None None (Some "best");
          SAITS.EBuildNet 2 4 3 (2 * 4) 16 2 4 4 (SAITS.NInt 0)
            (SAITS.NInt 0) true 1 1;
          SAITS.EPrintModelSize; SAITS.ESendModelToDevice;
          SAITS.EInitOptimizer].
Proof.
  apply (saits_init_wiring (fw := Demo.saits_framework) 4 3 2 10 16 2 4 4
           (SAITS.NInt 0) (SAITS.NInt 0) true 1 1 32 100 None tt (Some tt) 0
           None None (Some "best") Demo.world0 Demo.saits_self
           Demo.saits_built.2).
  reflexivity.
Defined.

Lemma saits_init_without_optimizer_witness :
  exists w',
    SAITS.__init__ (fw := Demo.saits_framework) 4 3 2 10 16 2 4 4
      (SAITS.NInt 0) (SAITS.NInt 0) true 1 1 32 100 None tt None 0 None None
      (Some "best") Demo.world0
    = (Raise (AttributeError
                "'NoneType' object has no attribute 'init_optimizer'"), w')
    /\ SAITS.env w' = tt
    /\ Runs.new_events Demo.world0 w'
       = [SAITS.EBaseInit 32 100 None 0 None None (Some "best");
          SAITS.EBuildNet 2 4 3 (2 * 4) 16 2 4 4 (SAITS.NInt 0)
            (SAITS.NInt 0) true 1 1;
          SAITS.EPrintModelSize; SAITS.ESendModelToDevice].
Proof.
  destruct (saits_init_without_optimizer (fw := Demo.saits_framework) 4 3 2
              10 16 2 4 4 (SAITS.NInt 0) (SAITS.NInt 0) true 1 1 32 100 None
              tt 0 None None (Some "best") Demo.world0)
    as [_ Hraise].
  exact (Hraise (32%Z, 0%Z, None) tt (8%Z, true) tt tt (8%Z, true) tt
           eq_refl eq_refl eq_refl eq_refl).
Defined.

Lemma saits_fit_calls_in_order_witness :
  exists ds tl validation vl trained,
    Runs.new_events (fw := Demo.saits_framework) Demo.world0
      Demo.saits_fitted.2.2
    = [SAITS.EDatasetForSAITS (fw := Demo.saits_framework) Demo.data_X false
         false "h5py";
       SAITS.EDataLoader ds
         (SAITS.batch_size (SAITS.base Demo.saits_self)) true
         (SAITS.num_workers (SAITS.base Demo.saits_self))]
      ++ validation
      ++ [SAITS.ETrainModel tl vl;
          SAITS.ELoadStateDict
            (SAITS.best_model_dict (SAITS.base trained));
          SAITS.EEval; SAITS.EAutoSave true].
Proof.
  destruct (saits_fit_calls_in_order (fw := Demo.saits_framework)
              (bm := Demo.saits_methods) Demo.data_X (Some Demo.data_X_ori)
              "h5py" Demo.saits_self Demo.world0 Demo.saits_fitted.2.1
              Demo.saits_fitted.2.2 eq_refl)
    as (ds & e1 & tl & e2 & validation & vl & trained & _ & _ & _ & Hevents).
  exists ds, tl, validation, vl, trained. exact Hevents.
Defined.

Lemma saits_fit_saves_after_freezing_witness :
  true = true
  /\ exists tl vl e0 trained e1 net,
       SAITS._train_model (BaseMethods := Demo.saits_methods) Demo.saits_self
         tl vl e0 = (Ok tt, (trained, e1))
       /\ SAITS.Net_load_state_dict (Framework := Demo.saits_framework)
            (SAITS.model trained) (SAITS.best_model_dict (SAITS.base trained))
          = Ok net.
Proof.
  apply (saits_fit_saves_after_freezing (fw := Demo.saits_framework)
           (bm := Demo.saits_methods) Demo.data_X (Some Demo.data_X_ori)
           "h5py" Demo.saits_self Demo.world0 (Ok tt) Demo.saits_fitted.2.1
           Demo.saits_fitted.2.2 true).
  - reflexivity.
  - apply list_elem_of_lookup_2 with 8%nat. reflexivity.
Defined.

Lemma saits_fit_trains_on_checked_data_witness :
  is_Some (Some [[[0]; [1; 0; 3]; [1; 1; 1]]]%Z)
  /\ exists e keys e',
       SAITS.dataset_keys (fw := Demo.saits_framework) Demo.data_X_ori e
       = (Ok keys, e')
       /\ "X_ori" ∈ keys.
Proof.
  apply (saits_fit_trains_on_checked_data (fw := Demo.saits_framework)
           (bm := Demo.saits_methods) Demo.data_X (Some Demo.data_X_ori)
           "h5py" Demo.saits_self Demo.world0 (Ok tt) Demo.saits_fitted.2.1
           Demo.saits_fitted.2.2 [[[0]; [1; 0; 3]; [1; 1; 1]]]%Z
           (Some [[[0]; [1; 0; 3]; [1; 1; 1]]]%Z)).
  - reflexivity.
  - apply list_elem_of_lookup_2 with 5%nat. reflexivity.
Defined.

Lemma saits_predict_one_item_per_batch_witness :
  exists ds e1 loader e2 batches e3 ic joined,
    SAITS.BaseDataset (Framework := Demo.saits_framework) Demo.data_X false
      false "h5py" (SAITS.env Demo.world0) = (Ok ds, e1)
    /\ SAITS.DataLoader ds (SAITS.batch_size (SAITS.base Demo.saits_self))
         false (SAITS.num_workers (SAITS.base Demo.saits_self)) e1
       = (Ok loader, e2)
    /\ SAITS.Loader_batches loader e2 = (Ok batches, e3)
    /\ SAITS.torch_cat (Framework := Demo.saits_framework) ic = Ok joined
    /\ length ic = length batches.
Proof.
  destruct (saits_predict_one_item_per_batch (fw := Demo.saits_framework)
              Demo.data_X "h5py" true true Demo.saits_self Demo.world0
              (<["latent_vars" :=
                   SAITS.PDict (<["combining_weights" := [3]%Z]>
                                  (<["second_DMSA_attn_weights" := [2]%Z]>
                                     (<["first_DMSA_attn_weights" := [1]%Z]>
                                        ∅)))]>
                 (<["imputation" := SAITS.PArray [1; 0; 3]%Z]> ∅))
              Demo.saits_predicted.2 eq_refl)
    as (ds & e1 & loader & e2 & batches & e3 & passes & ic & fc & sc & cc
        & joined & Hds & Hloader & Hiter & _ & _ & _ & Hic & Hcat & _).
  exists ds, e1, loader, e2, batches, e3, ic, joined.
  split; [exact Hds|]. split; [exact Hloader|]. split; [exact Hiter|].
  split; [exact Hcat|exact Hic].
Defined.

Lemma saits_predict_without_batches_witness :
  exists w',
    SAITS.predict (fw := Cases.no_batches) Demo.data_X "h5py" true false
      (Cases.object None [] ∅, Cases.world None [] ∅)
    = (Raise (Exn "RuntimeError" "expected a non-empty list"),
       (SAITS.with_model (SAITS.Net_eval (SAITS.model (Cases.object None [] ∅)))
          (Cases.object None [] ∅), w'))
    /\ SAITS.env w' = tt
    /\ Runs.new_events (fw := Cases.no_batches) (Cases.world None [] ∅) w'
       = [SAITS.EEval;
          SAITS.EBaseDataset (fw := Cases.no_batches) Demo.data_X false false
            "h5py";
          SAITS.EDataLoader (fw := Cases.no_batches) [1; 0; 3]%Z 32 false 0;
          SAITS.EIterate (fw := Cases.no_batches) [];
          SAITS.ETorchCat []].
Proof.
  apply (saits_predict_without_batches (fw := Cases.no_batches)
           Demo.data_X "h5py" true false (Cases.object None [] ∅)
           (Cases.world None [] ∅) [1; 0; 3]%Z tt [] tt tt).
  - reflexivity.
  - reflexivity.
  - reflexivity.
  - reflexivity.
Defined.

Lemma saits_impute_returns_array_witness :
  exists imputation : list Z,
    (SAITS.PArray [1; 0; 3]%Z : SAITS.PredVal (list Z))
    = SAITS.PArray imputation.
Proof.
  apply (saits_impute_returns_array (fw := Demo.saits_framework) Demo.data_X
           "h5py" Demo.saits_self Demo.world0 (SAITS.PArray [1; 0; 3]%Z)
           (SAITS.impute (fw := Demo.saits_framework) Demo.data_X "h5py"
              (Demo.saits_self, Demo.world0)).2).
  reflexivity.
Defined.

Lemma saits_fit_checks_after_wrapping_witness :
  Some Demo.data_X = Some Demo.data_X
  /\ exists ds e1 tl e2,
       SAITS.DatasetForSAITS (Framework := Demo.saits_framework) Demo.data_X
         false false "h5py" (SAITS.env Demo.world0) = (Ok ds, e1)
       /\ SAITS.DataLoader ds (SAITS.batch_size (SAITS.base Demo.saits_self))
            true (SAITS.num_workers (SAITS.base Demo.saits_self)) e1
          = (Ok tl, e2).
Proof.
  apply (saits_fit_checks_after_wrapping (fw := Demo.saits_framework)
           (bm := Demo.saits_methods) Demo.data_X (Some Demo.data_X) "h5py"
           Demo.saits_self Demo.world0 Demo.saits_rejected.1
           Demo.saits_rejected.2.1 Demo.saits_rejected.2.2 Demo.data_X).
  - reflexivity.
  - apply list_elem_of_lookup_2 with 2%nat. reflexivity.
Defined.

Lemma saits_init_warnings_witness :
  exists before after,
    SAITS.warnings
      (SAITS.__init__ (fw := Demo.saits_framework) 4 3 2 10 16 2 4 4
         (SAITS.NInt 0) (SAITS.NInt 0) true 1 1 32 100 None tt None 0 None
         None (Some "best") Demo.world0).2
    = before
      ++ [SAITS.d_model_mismatch_msg 10 2 4;
          SAITS.d_model_reset_msg (2 * 4) 2 4]
      ++ after.
Proof.
  apply (saits_init_warnings (fw := Demo.saits_framework) 4 3 2 10 16 2 4 4
           (SAITS.NInt 0) (SAITS.NInt 0) true 1 1 32 100 None tt None 0 None
           None (Some "best") Demo.world0 (32%Z, 0%Z, None) tt).
  - reflexivity.
  - discriminate.
Defined.

(** *** The claim on [fit] without its contract *)

